(** * The offer engine of the e-commerce backend

    A shallow embedding of [src/ecommerce/models/offers.js] (the Mongoose
    model [Offer] with its statics [validateCoupon], its methods
    [calculateDiscount] and [applyCoupon] and its [pre('save')] hook) and of
    the [applyCoupon] request handler of [src/ecommerce/routes/offerRoutes.js].

    Conventions of the embedding:
    - a JavaScript [Number] is an exact rational ([Q]); the rounding of
      IEEE doubles, [NaN] and the infinities are outside the model;
    - a [Date] is its number of milliseconds since the epoch ([Z]);
    - an [ObjectId] is its hexadecimal string; [null]/[undefined] is [None],
      and an [ObjectId] is never a falsy value;
    - a string is the sequence of its bytes; [toUpperCase] and [trim] are
      modelled on ASCII strings, and the statements that depend on how a
      code is normalised take an ASCII code;
    - an [Offer] holds the paths that [offerSchema] declares; the paths that
      Mongoose keeps on its own ([createdAt], [updatedAt], [__v], the [_id]
      of a usage entry) are not held, and no statement is about them;
    - the collection is the list of its documents, in natural order;
    - an asynchronous function is a state transformer that either completes
      with a value or throws a JavaScript [Error]. *)

From Stdlib Require Import QArith Qminmax ZArith List String Ascii Bool Lia Lqa.
From Stdlib Require Import Sorted Permutation.
Import ListNotations.

Local Open Scope string_scope.
Local Open Scope Q_scope.

(** ** JavaScript values *)

Definition ObjectId := string.
Definition Date := Z.

(** A template literal is kept as its pieces: the text and the interpolated
    numbers, so that no decimal rendering of a [Number] has to be chosen.
    [Unrendered] stands, in a message of Mongoose, for a part that is
    rendered from what the model does not hold; it is named by what it
    renders. *)
Inductive Piece : Type :=
| Text (s : string)
| Num (q : Q)
| Unrendered (what : string).

(** [new Error(message)] *)
Record JsError : Type := Error { message : list Piece }.

(** [x < y] and [x >= y] on numbers *)
Definition Qltb (x y : Q) : bool := negb (Qle_bool y x).
Definition Qgeb (x y : Q) : bool := Qle_bool y x.

(** Truthiness of an optional number: [undefined], [null] and [0] are falsy. *)
Definition truthy (x : option Q) : bool :=
  match x with
  | Some q => negb (Qeq_bool q 0)
  | None => false
  end.

(** [x && k x] used as a condition, for an optional number [x]: the right
    operand is evaluated on the number only when the number is truthy. *)
Definition andThen (x : option Q) (k : Q -> bool) : bool :=
  match x with
  | Some q => if truthy (Some q) then k q else false
  | None => false
  end.

(** Truthiness of an optional identifier. *)
Definition present (x : option ObjectId) : bool :=
  match x with
  | Some _ => true
  | None => false
  end.

(** [String.prototype.toUpperCase], on the ASCII letters (coupon codes are
    alphanumeric); other bytes are left as they are. *)
Definition upper_ascii (c : ascii) : ascii :=
  let n := nat_of_ascii c in
  if (97 <=? n)%nat && (n <=? 122)%nat then ascii_of_nat (n - 32) else c.

Fixpoint toUpperCase (s : string) : string :=
  match s with
  | EmptyString => EmptyString
  | String c s' => String (upper_ascii c) (toUpperCase s')
  end.

(** [String.prototype.trim], on the ASCII white space (tab, line feed,
    vertical tab, form feed, carriage return, space) *)
Definition isSpace (c : ascii) : bool :=
  let n := nat_of_ascii c in
  ((9 <=? n)%nat && (n <=? 13)%nat) || (n =? 32)%nat.

Fixpoint trimStart (s : string) : string :=
  match s with
  | EmptyString => EmptyString
  | String c s' => if isSpace c then trimStart s' else s
  end.

Fixpoint trimEnd (s : string) : string :=
  match s with
  | EmptyString => EmptyString
  | String c s' =>
      match trimEnd s' with
      | EmptyString => if isSpace c then EmptyString else String c EmptyString
      | r => String c r
      end
  end.

Definition trim (s : string) : string := trimEnd (trimStart s).

(** A string of ASCII characters *)
Definition isAsciiChar (c : ascii) : bool :=
  match c with
  | Ascii _ _ _ _ _ _ _ b7 => negb b7
  end.

Fixpoint isAscii (s : string) : bool :=
  match s with
  | EmptyString => true
  | String c s' => isAsciiChar c && isAscii s'
  end.

(** [Array.prototype.includes] on an array of identifiers *)
Definition includes (l : list ObjectId) (x : ObjectId) : bool :=
  existsb (String.eqb x) l.

(** ** The schema *)

Inductive OfferType : Type := percentage | fixed.

(** An element of [usageHistory] *)
Record UsageEntry : Type := mkUsageEntry {
  entry_userId : ObjectId;
  entry_orderId : option ObjectId;
  entry_discountApplied : Q;
  entry_appliedAt : Date
}.

(** A document of the [Offer] model, with the paths of [offerSchema] *)
Record Offer : Type := mkOffer {
  _id : ObjectId;
  code : string;
  type : OfferType;
  value : Q;
  description : string;
  startDate : Date;
  endDate : Date;
  minimumOrderAmount : Q;
  maximumDiscount : option Q;
  usageLimit : option Q;
  timesUsed : Q;
  isActive : bool;
  userSpecific : bool;
  allowedUsers : list ObjectId;
  applicableCategories : list ObjectId;
  applicableProducts : list ObjectId;
  usageHistory : list UsageEntry;
  createdBy : ObjectId;
  updatedBy : option ObjectId
}.

(** Assignments to the two paths that the engine writes *)
Definition set_timesUsed (o : Offer) (n : Q) : Offer :=
  mkOffer (_id o) (code o) (type o) (value o) (description o) (startDate o)
    (endDate o) (minimumOrderAmount o) (maximumDiscount o) (usageLimit o)
    n (isActive o) (userSpecific o) (allowedUsers o)
    (applicableCategories o) (applicableProducts o) (usageHistory o)
    (createdBy o) (updatedBy o).

Definition set_usageHistory (o : Offer) (h : list UsageEntry) : Offer :=
  mkOffer (_id o) (code o) (type o) (value o) (description o) (startDate o)
    (endDate o) (minimumOrderAmount o) (maximumDiscount o) (usageLimit o)
    (timesUsed o) (isActive o) (userSpecific o) (allowedUsers o)
    (applicableCategories o) (applicableProducts o) h
    (createdBy o) (updatedBy o).


(** ** The collection and the effects *)

Definition Store := list Offer.

(** A computation over a state [S] that completes with a value or throws. *)
Definition M (S A : Type) : Type := S -> (JsError + A) * S.

Definition ret {S A} (a : A) : M S A := fun s => (inr a, s).

Definition throw {S A} (e : JsError) : M S A := fun s => (inl e, s).

Definition bind {S A B} (m : M S A) (k : A -> M S B) : M S B :=
  fun s =>
    match m s with
    | (inr a, s') => k a s'
    | (inl e, s') => (inl e, s')
    end.

Notation "x <- m ;; k" := (bind m (fun x => k))
  (at level 61, m at next level, right associativity).
Notation "m ;;; k" := (bind m (fun _ => k))
  (at level 61, right associativity).

(** [if (c) { body }] for a statement *)
Definition when {S} (c : bool) (body : M S unit) : M S unit :=
  if c then body else ret tt.

(** [Model.findOne(query)]: the first document that matches, or [null] *)
Definition findOne (query : Offer -> bool) : M Store (option Offer) :=
  fun db => (inr (find query db), db).

(** The setters of the path [code] ([trim: true], [uppercase: true]), which
    Mongoose applies to a value of the path, also in the filter of a query *)
Definition castCode (c : string) : string := toUpperCase (trim c).

(** The query of [validateCoupon]:
    [{ code, isActive: true, startDate: {$lte: t1}, endDate: {$gte: t2} }],
    where [t1] and [t2] are the two readings [new Date()] of the clock, and
    the [code] of the filter is cast by the setters of the path. *)
Definition activeQuery (c : string) (t1 t2 : Date) (o : Offer) : bool :=
  String.eqb (code o) (castCode c)
  && Bool.eqb (isActive o) true
  && (startDate o <=? t1)%Z
  && (t2 <=? endDate o)%Z.

(** ** [Offer.validateCoupon] *)

Definition NotFound : JsError :=
  Error [Text "Invalid or expired coupon code"].

Definition MinimumNotMet (m : Q) : JsError :=
  Error [Text "Minimum order amount of ₹"; Num m; Text " required"].

Definition UsageLimitExceeded : JsError :=
  Error [Text "Coupon usage limit exceeded"].

Definition UserNotEligible : JsError :=
  Error [Text "This coupon is not available for your account"].

Definition validateCoupon (t1 t2 : Date) (code : string) (orderAmount : Q)
    (userId : option ObjectId) : M Store Offer :=
  found <- findOne (activeQuery (toUpperCase code) t1 t2) ;;
  match found with
  | None => throw NotFound
  | Some offer =>
      when (Qltb orderAmount (minimumOrderAmount offer))
        (throw (MinimumNotMet (minimumOrderAmount offer))) ;;;
      when (andThen (usageLimit offer) (fun l => Qgeb (timesUsed offer) l))
        (throw UsageLimitExceeded) ;;;
      when (userSpecific offer && present userId)
        (match userId with
         | Some u => when (negb (includes (allowedUsers offer) u))
                       (throw UserNotEligible)
         | None => ret tt
         end) ;;;
      ret offer
  end.

(** The completion of [validateCoupon] as a function of what its query
    found: the checks in the order of the statements. *)
Definition verdict (found : option Offer) (orderAmount : Q)
    (userId : option ObjectId) : JsError + Offer :=
  match found with
  | None => inl NotFound
  | Some offer =>
      if Qltb orderAmount (minimumOrderAmount offer)
      then inl (MinimumNotMet (minimumOrderAmount offer))
      else if andThen (usageLimit offer) (fun l => Qgeb (timesUsed offer) l)
      then inl UsageLimitExceeded
      else match userId with
           | Some u =>
               if userSpecific offer && negb (includes (allowedUsers offer) u)
               then inl UserNotEligible
               else inr offer
           | None => inr offer
           end
  end.

(** ** [offer.calculateDiscount] *)

Definition calculateDiscount (this : Offer) (orderAmount : Q) : Q :=
  let discount :=
    match type this with
    | percentage => (orderAmount * value this) / 100
    | fixed => value this
    end in
  let discount :=
    match maximumDiscount this with
    | Some m =>
        if andThen (Some m) (fun m => Qltb m discount) then m else discount
    | None => discount
    end in
  Qmin discount orderAmount.

(** ** The validators of the schema *)

(** [min: [m, ...]] on an optional path: a missing value is not checked. *)
Definition minOpt (m : Q) (x : option Q) : bool :=
  match x with
  | Some q => Qle_bool m q
  | None => true
  end.

(** The validators that [offerSchema] declares ([minlength], [maxlength],
    [min], [validate]); [required] paths are present by their type. *)
Definition schemaValid (o : Offer) : bool :=
  (* code *)
  (3 <=? String.length (code o))%nat && (String.length (code o) <=? 20)%nat
  (* value *)
  && Qle_bool 0 (value o)
  && match type o with
     | percentage => Qle_bool (value o) 100
     | fixed => Qltb 0 (value o)
     end
  (* description *)
  && negb (String.eqb (description o) "")
  && (String.length (description o) <=? 500)%nat
  (* endDate *)
  && (startDate o <? endDate o)%Z
  (* minimumOrderAmount *)
  && Qle_bool 0 (minimumOrderAmount o)
  (* maximumDiscount *)
  && minOpt 0 (maximumDiscount o)
  && match type o, maximumDiscount o with
     | percentage, Some m => negb (truthy (Some m)) || Qltb 0 m
     | _, _ => true
     end
  (* usageLimit *)
  && minOpt 1 (usageLimit o)
  (* timesUsed *)
  && Qle_bool 0 (timesUsed o)
  (* usageHistory *)
  && forallb (fun e => Qle_bool 0 (entry_discountApplied e)) (usageHistory o).

(** ** Documents in memory and [save] *)

(** The message of the error with which Mongoose refuses to save a document
    that fails a validator: the failed paths with the message of their first
    failed validator, in the order of the schema. *)
Definition firstFailure (path : list Piece) (checks : list (bool * string))
  : list (list Piece) :=
  match find (fun c => negb (fst c)) checks with
  | Some c => [(path ++ [Text ": "; Text (snd c)])%list]
  | None => []
  end.

Definition entryFailures (i : nat) (e : UsageEntry) : list (list Piece) :=
  firstFailure
    [Text "usageHistory."; Num (inject_Z (Z.of_nat i));
     Text ".discountApplied"]
    [(Qle_bool 0 (entry_discountApplied e),
      "Discount applied cannot be negative")].

Fixpoint historyFailures (i : nat) (h : list UsageEntry)
  : list (list Piece) :=
  match h with
  | [] => []
  | e :: h' => (entryFailures i e ++ historyFailures (S i) h')%list
  end.

Definition failedPaths (o : Offer) : list (list Piece) :=
  (firstFailure [Text "code"]
    [(negb (String.eqb (code o) ""), "Offer code is required");
     ((3 <=? String.length (code o))%nat,
      "Offer code must be at least 3 characters");
     ((String.length (code o) <=? 20)%nat,
      "Offer code cannot exceed 20 characters")]
  ++ firstFailure [Text "value"]
       [(Qle_bool 0 (value o), "Offer value cannot be negative");
        (match type o with
         | percentage => Qle_bool (value o) 100
         | fixed => Qltb 0 (value o)
         end,
         "Percentage cannot exceed 100% or fixed amount must be positive")]
  ++ firstFailure [Text "description"]
       [(negb (String.eqb (description o) ""),
         "Offer description is required");
        ((String.length (description o) <=? 500)%nat,
         "Description cannot exceed 500 characters")]
  ++ firstFailure [Text "endDate"]
       [((startDate o <? endDate o)%Z, "End date must be after start date")]
  ++ firstFailure [Text "minimumOrderAmount"]
       [(Qle_bool 0 (minimumOrderAmount o),
         "Minimum order amount cannot be negative")]
  ++ firstFailure [Text "maximumDiscount"]
       [(minOpt 0 (maximumDiscount o), "Maximum discount cannot be negative");
        (match type o, maximumDiscount o with
         | percentage, Some m => negb (truthy (Some m)) || Qltb 0 m
         | _, _ => true
         end,
         "Maximum discount must be positive for percentage offers")]
  ++ firstFailure [Text "usageLimit"]
       [(minOpt 1 (usageLimit o), "Usage limit must be at least 1")]
  ++ firstFailure [Text "timesUsed"]
       [(Qle_bool 0 (timesUsed o), "Times used cannot be negative")]
  ++ historyFailures 0 (usageHistory o))%list.

Fixpoint joined (l : list (list Piece)) : list Piece :=
  match l with
  | [] => []
  | [x] => x
  | x :: l' => (x ++ Text ", " :: joined l')%list
  end.

Definition ValidationError (o : Offer) : JsError :=
  Error (Text "Offer validation failed: " :: joined (failedPaths o)).

(** The error with which Mongoose refuses an update that matches no stored
    document *)
Definition quote : string := String (ascii_of_nat 34) EmptyString.

Definition VersionError (o : Offer) : JsError :=
  Error [Text "No matching document found for id "; Text quote;
         Text (_id o); Text quote; Text " version "; Unrendered "__v";
         Text " modifiedPaths "; Text quote; Unrendered "modifiedPaths";
         Text quote].

(** A document in memory, as Mongoose keeps it: its paths as the program
    reads and writes them, the document as it was loaded or last saved, and
    what has been changed since. *)
Record Document : Type := mkDocument {
  paths : Offer;
  original : Offer;
  modifiedTimesUsed : bool;
  pushed : list UsageEntry
}.

(** A document as a query returns it *)
Definition loaded (o : Offer) : Document := mkDocument o o false [].

(** An instance method runs on its document [this] and on the collection. *)
Definition Doc : Type := Document * Store.

Definition getThis : M Doc Offer := fun s => (inr (paths (fst s)), s).

(** [this.timesUsed = f(this.timesUsed)] *)
Definition assignTimesUsed (f : Q -> Q) : M Doc unit :=
  fun s =>
    let d := fst s in
    (inr tt,
     (mkDocument (set_timesUsed (paths d) (f (timesUsed (paths d))))
        (original d) true (pushed d),
      snd s)).

(** [this.usageHistory.push(e)] *)
Definition pushUsageHistory (e : UsageEntry) : M Doc unit :=
  fun s =>
    let d := fst s in
    (inr tt,
     (mkDocument
        (set_usageHistory (paths d) (usageHistory (paths d) ++ [e]))
        (original d) (modifiedTimesUsed d) (pushed d ++ [e]),
      snd s)).

Definition isModified (d : Document) : bool :=
  modifiedTimesUsed d
  || match pushed d with
     | [] => false
     | _ :: _ => true
     end.

(** The [pre('save')] hook of the schema *)
Definition EndBeforeStart : JsError :=
  Error [Text "End date must be after start date"].

Definition preSave (this : Offer) : option JsError :=
  if (endDate this <=? startDate this)%Z then Some EndBeforeStart else None.

(** The update of [save], [{$set: {timesUsed}, $push: {usageHistory}}],
    applied to a stored document *)
Definition applyDelta (d : Document) (stored : Offer) : Offer :=
  set_usageHistory
    (if modifiedTimesUsed d
     then set_timesUsed stored (timesUsed (paths d))
     else stored)
    (usageHistory stored ++ pushed d).

(** [updateOne({_id: id}, ...)]: the stored document of the [_id] becomes
    what [f] makes of it; [None] when no stored document has the [_id]. *)
Fixpoint updateById (id : ObjectId) (f : Offer -> Offer) (db : Store)
  : option Store :=
  match db with
  | [] => None
  | o :: db' =>
      if String.eqb (_id o) id then Some (f o :: db')
      else option_map (cons o) (updateById id f db')
  end.

Definition Q_eq_dec (x y : Q) : {x = y} + {x <> y}.
Proof. decide equality; [apply Pos.eq_dec | apply Z.eq_dec]. Defined.

Definition UsageEntry_eq_dec (x y : UsageEntry) : {x = y} + {x <> y}.
Proof.
  decide equality;
    [apply Z.eq_dec | apply Q_eq_dec
     | decide equality; apply string_dec | apply string_dec].
Defined.

Definition Offer_eq_dec (x y : Offer) : {x = y} + {x <> y}.
Proof.
  decide equality;
    try apply string_dec; try apply Z.eq_dec; try apply Q_eq_dec;
    try apply Bool.bool_dec;
    try (apply list_eq_dec; first [apply string_dec | apply UsageEntry_eq_dec]);
    try (decide equality; first [apply string_dec | apply Q_eq_dec]).
Defined.

(** What was loaded is still what is stored. *)
Definition stillStored (d : Document) (db : Store) : bool :=
  existsb (fun s => if Offer_eq_dec s (original d) then true else false) db.

(** The paths of a document in memory are those it was loaded with, with
    the changes that Mongoose has tracked since. *)
Definition tracked (d : Document) : Prop :=
  paths d = applyDelta d (original d).

(** [this.save()].  The validators of the schema run first, then the
    [pre('save')] hook.  A document that was changed is then written by an
    update of the stored document of its [_id]: that document becomes the
    stored document with the changes applied, which is the document in
    memory when what was loaded is still what is stored; when no stored
    document has the [_id], the save is refused.  After the save the
    document in memory counts as loaded. *)
Definition save : M Doc unit :=
  fun s =>
    let d := fst s in
    let db := snd s in
    if negb (schemaValid (paths d)) then (inl (ValidationError (paths d)), s)
    else
      match preSave (paths d) with
      | Some e => (inl e, s)
      | None =>
          if negb (isModified d) then (inr tt, s)
          else
            match updateById (_id (paths d))
                    (fun stored =>
                       if stillStored d db then paths d
                       else applyDelta d stored)
                    db with
            | None => (inl (VersionError (paths d)), s)
            | Some db' => (inr tt, (loaded (paths d), db'))
            end
      end.

(** ** [offer.applyCoupon] *)

(** [orderId || null] *)
Definition orNull (x : option ObjectId) : option ObjectId :=
  if present x then x else None.

Definition applyCoupon (now : Date) (userId : ObjectId)
    (orderId : option ObjectId) (discountApplied : Q) : M Doc Offer :=
  assignTimesUsed (fun n => n + 1) ;;;
  pushUsageHistory (mkUsageEntry userId (orNull orderId) discountApplied now) ;;;
  save ;;;
  getThis.

(** The paths of the document as the first two statements of [applyCoupon]
    leave them *)
Definition redeemed (now : Date) (userId : ObjectId)
    (orderId : option ObjectId) (discountApplied : Q) (this : Offer) : Offer :=
  set_usageHistory (set_timesUsed this (timesUsed this + 1))
    (usageHistory this ++
     [mkUsageEntry userId (orNull orderId) discountApplied now]).

(** The document in memory after the first two statements *)
Definition touched (now : Date) (u : ObjectId) (oid : option ObjectId)
    (dd : Q) (d : Document) : Document :=
  mkDocument (redeemed now u oid dd (paths d)) (original d) true
    (pushed d ++ [mkUsageEntry u (orNull oid) dd now]).

(** One call of [applyCoupon], as a caller issues it *)
Record Call : Type := mkCall {
  call_now : Date;
  call_userId : ObjectId;
  call_orderId : option ObjectId;
  call_discountApplied : Q
}.

(** The outcome of a call whose promise is awaited and whose rejection is
    caught: the error or the value. *)
Definition settle {S A} (m : M S A) : M S (JsError + A) :=
  fun s => (inr (fst (m s)), snd (m s)).

(** The calls of a list, each awaited before the next one is issued, all
    against the same document. *)
Fixpoint applyCouponAll (calls : list Call) : M Doc (list (JsError + Offer)) :=
  match calls with
  | [] => ret []
  | c :: cs =>
      r <- settle (applyCoupon (call_now c) (call_userId c) (call_orderId c)
                     (call_discountApplied c)) ;;
      rs <- applyCouponAll cs ;;
      ret (r :: rs)
  end.

Definition succeeded {A} (r : JsError + A) : bool :=
  match r with
  | inr _ => true
  | inl _ => false
  end.

Definition successes {A} (rs : list (JsError + A)) : nat :=
  List.length (filter succeeded rs).

Definition failures {A} (rs : list (JsError + A)) : nat :=
  List.length (filter (fun r => negb (succeeded r)) rs).

(** ** The request handler [applyCoupon] of [offerRoutes.js] *)

Record Request : Type := mkRequest {
  body_code : option string;
  body_orderAmount : option Q;
  user_id : ObjectId
}.

Inductive Response : Type :=
| Status200 (offer : Offer) (discount : Q)
| Status400 (message : list Piece).

(** [try { ... } catch (error) { ... }] *)
Definition tryCatch {S A} (m : M S A) (handler : JsError -> M S A) : M S A :=
  fun s =>
    match m s with
    | (inl e, s') => handler e s'
    | (inr a, s') => (inr a, s')
    end.

(** A call of an instance method on a document that a query returned *)
Definition call {A} (this : Offer) (m : M Doc A) : M Store A :=
  fun db =>
    (fst (m (loaded this, db)), snd (snd (m (loaded this, db)))).

Definition nonEmpty (x : option string) : bool :=
  match x with
  | Some s => negb (String.eqb s "")
  | None => false
  end.

Definition applyCouponHandler (t1 t2 t3 : Date) (req : Request)
  : M Store Response :=
  tryCatch
    (if negb (nonEmpty (body_code req)) || negb (truthy (body_orderAmount req))
     then ret (Status400 [Text "Coupon code and order amount are required"])
     else
       match body_code req, body_orderAmount req with
       | Some code, Some orderAmount =>
           offer <- validateCoupon t1 t2 code orderAmount
                      (Some (user_id req)) ;;
           let discount := calculateDiscount offer orderAmount in
           offer <- call offer (applyCoupon t3 (user_id req) None discount) ;;
           ret (Status200 offer discount)
       | _, _ => ret (Status400 [Text "Coupon code and order amount are required"])
       end)
    (fun error => ret (Status400 (message error))).

(** ** Sample data ([routes/sampleData/sampleOffers.js]) *)

Module Sample.

Definition today : Date := 1700000000000%Z.
Definition days (n : Z) : Z := (n * 24 * 60 * 60 * 1000)%Z.
Definition admin : ObjectId := "64a1f2b3c4d5e6f789012345".
Definition alice : ObjectId := "64a1f2b3c4d5e6f789012347".
Definition bob : ObjectId := "64a1f2b3c4d5e6f789012348".
Definition carol : ObjectId := "64a1f2b3c4d5e6f789012350".

Definition WELCOME10 : Offer :=
  mkOffer "650000000000000000000001" "WELCOME10" percentage 10
    "Welcome discount for new customers - 10% off on orders above 500"
    today (today + days 30)%Z 500 (Some 200) (Some 1000) 0 true false
    [] [] [] [] admin None.

Definition FLAT100 : Offer :=
  mkOffer "650000000000000000000002" "FLAT100" fixed 100
    "Flat 100 off on orders above 1000"
    today (today + days 15)%Z 1000 None (Some 500) 0 true false
    [] [] [] [] admin None.

Definition LOYALTY20 : Offer :=
  mkOffer "650000000000000000000004" "LOYALTY20" percentage 20
    "Loyalty program discount for premium customers"
    today (today + days 90)%Z 1000 (Some 300) None 0 true true
    [alice; bob] [] [] [] admin None.

Definition SEASONAL25 : Offer :=
  mkOffer "650000000000000000000005" "SEASONAL25" percentage 25
    "Seasonal offer - 25% off on fashion items"
    (today + days 2)%Z (today + days 20)%Z 800 (Some 400) (Some 300) 0
    true false [] ["64a1f2b3c4d5e6f789012349"] [] [] admin None.

(** A coupon that can be redeemed once *)
Definition ONCE : Offer :=
  mkOffer "650000000000000000000007" "ONCE" fixed 50
    "Single use coupon"
    today (today + days 30)%Z 0 None (Some 1) 0 true false
    [] [] [] [] admin None.

(** A percentage coupon whose cap is set to zero *)
Definition ZEROCAP : Offer :=
  mkOffer "650000000000000000000008" "ZEROCAP" percentage 10
    "Ten percent off, cap set to zero"
    today (today + days 30)%Z 0 (Some 0) None 0 true false
    [] [] [] [] admin None.

Definition offers : Store :=
  [WELCOME10; FLAT100; LOYALTY20; SEASONAL25; ONCE; ZEROCAP].

End Sample.

(** ** Vocabulary of the statements *)

(** The lookup of [validateCoupon]: the offer that its query finds *)
Definition activeOffer (code : string) (t1 t2 : Date) (db : Store)
  : option Offer :=
  find (activeQuery (toUpperCase code) t1 t2) db.

(** The order total meets the minimum of the offer. *)
Definition meetsMinimum (o : Offer) (orderAmount : Q) : Prop :=
  minimumOrderAmount o <= orderAmount.

(** The offer has uses left: its limit, when it has one, is not reached.
    (A limit of zero is no limit.) *)
Definition hasUsesLeft (o : Offer) : Prop :=
  forall l, usageLimit o = Some l -> l == 0 \/ timesUsed o < l.

(** The counter agrees with the ledger. *)
Definition usageRecorded (o : Offer) : Prop :=
  timesUsed o == inject_Z (Z.of_nat (List.length (usageHistory o))).

(** The discount as the specification words it: the raw discount by type,
    capped by [maximumDiscount] whenever that is set (present), then capped
    by the order total. *)
Definition rawDiscount (o : Offer) (orderAmount : Q) : Q :=
  match type o with
  | percentage => orderAmount * value o / 100
  | fixed => value o
  end.

Definition calculateDiscount_spec (o : Offer) (orderAmount : Q) : Q :=
  let discount := rawDiscount o orderAmount in
  let discount :=
    match maximumDiscount o with
    | Some m => if Qltb m discount then m else discount
    | None => discount
    end in
  Qmin discount orderAmount.

(** ** The virtuals [isExpired] and [isValid] *)



(** ** [Offer.findActive] *)

(** The [filters] argument of [findActive] *)
Record Filters : Type := mkFilters {
  filter_type : option OfferType;
  filter_minimumOrderAmount : option Q;
  filter_maximumDiscount : option Q
}.

Definition noFilters : Filters := mkFilters None None None.

Definition OfferType_eqb (x y : OfferType) : bool :=
  match x, y with
  | percentage, percentage => true
  | fixed, fixed => true
  | _, _ => false
  end.

(** The query that [findActive] builds: the three fixed conditions, and one
    condition for each filter that is truthy.  [{$gte: m}] matches no
    document whose path is missing. *)
Definition findActiveQuery (filters : Filters) (t1 t2 : Date) (o : Offer)
  : bool :=
  Bool.eqb (isActive o) true
  && (startDate o <=? t1)%Z
  && (t2 <=? endDate o)%Z
  && match filter_type filters with
     | Some ty => OfferType_eqb (type o) ty
     | None => true
     end
  && match filter_minimumOrderAmount filters with
     | Some m =>
         if truthy (Some m) then Qle_bool (minimumOrderAmount o) m else true
     | None => true
     end
  && match filter_maximumDiscount filters with
     | Some m =>
         if truthy (Some m)
         then match maximumDiscount o with
              | Some d => Qle_bool m d
              | None => false
              end
         else true
     | None => true
     end.

(** [.sort({ createdAt: -1 })]: newest first, by insertion; documents with
    the same key keep their natural order.  [createdAt] is the path that
    the schema option [timestamps: true] adds to a document; it is taken as
    a function of the document. *)
Fixpoint insertNewest (createdAt : Offer -> Date) (o : Offer)
    (l : list Offer) : list Offer :=
  match l with
  | [] => [o]
  | x :: l' =>
      if (createdAt x <=? createdAt o)%Z then o :: x :: l'
      else x :: insertNewest createdAt o l'
  end.

Fixpoint sortNewest (createdAt : Offer -> Date) (l : list Offer)
  : list Offer :=
  match l with
  | [] => []
  | o :: l' => insertNewest createdAt o (sortNewest createdAt l')
  end.

Definition findActive (createdAt : Offer -> Date) (filters : Filters)
    (t1 t2 : Date) : M Store (list Offer) :=
  fun db =>
    (inr (sortNewest createdAt (filter (findActiveQuery filters t1 t2) db)),
     db).

(** ** Requests served one after the other *)

(** A request to the route [applyCoupon] with the three clock readings of
    its handling *)
Record Arrival : Type := mkArrival {
  arrival_t1 : Date;
  arrival_t2 : Date;
  arrival_t3 : Date;
  arrival_request : Request
}.

Fixpoint serve (arrivals : list Arrival) : M Store (list Response) :=
  match arrivals with
  | [] => ret []
  | x :: xs =>
      r <- applyCouponHandler (arrival_t1 x) (arrival_t2 x) (arrival_t3 x)
             (arrival_request x) ;;
      rs <- serve xs ;;
      ret (r :: rs)
  end.

(** ** More vocabulary of the statements *)

(** Newest first: each document is at least as new as those after it. *)
Definition newerFirst (createdAt : Offer -> Date) (x y : Offer) : Prop :=
  (createdAt y <= createdAt x)%Z.

(** The message of the handler for a missing field *)
Definition required : list Piece :=
  [Text "Coupon code and order amount are required"].

(** A whole number *)
Definition whole (q : Q) : Prop := exists z : Z, q == inject_Z z.

(** The counter respects the limit: a positive limit is not exceeded, and
    counter and limit are whole numbers. *)
Definition withinLimit (o : Offer) : Prop :=
  whole (timesUsed o)
  /\ forall l, usageLimit o = Some l ->
               whole l /\ (0 < l -> timesUsed o <= l).

(** The collection with the stored document of the [_id] of [doc] replaced
    by [doc] (and with [doc] added when no stored document has its [_id]).
    This is what a completed [save] leaves of the collection when [doc] is
    the stored document with the changes of the call; [save] itself is
    [updateById], which adds nothing. *)
Fixpoint write (doc : Offer) (db : Store) : Store :=
  match db with
  | [] => [doc]
  | o :: db' =>
      if String.eqb (_id o) (_id doc) then doc :: db' else o :: write doc db'
  end.

(** No two documents of the collection have the same [_id]. *)
Definition uniqueIds (db : Store) : Prop := NoDup (map _id db).

(** * Properties *)

(** ** Numbers and the monad *)

Lemma Qltb_true (x y : Q) : Qltb x y = true <-> x < y.
Proof.
  unfold Qltb. rewrite negb_true_iff. split.
  - intros H. apply Qnot_le_lt. intros Hle.
    apply Qle_bool_iff in Hle. congruence.
  - intros H. destruct (Qle_bool y x) eqn:E; [|reflexivity].
    apply Qle_bool_iff in E. lra.
Qed.

Lemma Qltb_false (x y : Q) : Qltb x y = false <-> y <= x.
Proof.
  unfold Qltb. rewrite negb_false_iff. apply Qle_bool_iff.
Qed.

Lemma Qgeb_true (x y : Q) : Qgeb x y = true <-> y <= x.
Proof. unfold Qgeb. apply Qle_bool_iff. Qed.

Lemma truthy_Some (q : Q) : truthy (Some q) = true <-> ~ q == 0.
Proof.
  simpl. rewrite negb_true_iff. split.
  - intros H Hq. apply Qeq_bool_iff in Hq. congruence.
  - intros H. destruct (Qeq_bool q 0) eqn:E; [|reflexivity].
    apply Qeq_bool_iff in E. contradiction.
Qed.

Lemma includes_In (l : list ObjectId) (x : ObjectId) :
  includes l x = true <-> In x l.
Proof.
  unfold includes. rewrite existsb_exists. split.
  - intros [y [Hy Heq]]. apply String.eqb_eq in Heq. now subst.
  - intros H. exists x. split; [assumption | apply String.eqb_refl].
Qed.

(** ** [validateCoupon], statement by statement *)

(** The verdict of [validateCoupon] on the result of its query *)
Lemma validateCoupon_run (t1 t2 : Date) (c : string) (a : Q)
    (u : option ObjectId) (db : Store) :
  validateCoupon t1 t2 c a u db = (verdict (find (activeQuery (toUpperCase c) t1 t2) db) a u, db).
Proof.
  unfold validateCoupon, bind, findOne, verdict.
  destruct (find _ db) as [o|]; [|reflexivity].
  unfold when, throw, ret.
  destruct (Qltb a (minimumOrderAmount o)); [reflexivity|].
  destruct (andThen (usageLimit o) _); [reflexivity|].
  destruct u as [u|]; destruct (userSpecific o); simpl; try reflexivity.
  destruct (includes (allowedUsers o) u); reflexivity.
Qed.

Lemma find_none_iff {A} (f : A -> bool) (l : list A) :
  find f l = None <-> forall x, In x l -> f x = false.
Proof.
  split; [apply find_none|].
  induction l as [|x l IH]; intros H; simpl; [reflexivity|].
  rewrite (H x (or_introl eq_refl)). apply IH.
  intros y Hy. apply H. now right.
Qed.

(** What the query guarantees about the offer it finds *)
Lemma activeOffer_Some (c : string) (t1 t2 : Date) (db : Store) (o : Offer) :
  activeOffer c t1 t2 db = Some o ->
  In o db /\ code o = castCode (toUpperCase c) /\ isActive o = true
  /\ (startDate o <= t1)%Z /\ (t2 <= endDate o)%Z.
Proof.
  intros H. apply find_some in H. destruct H as [Hin Hq].
  unfold activeQuery in Hq.
  repeat (apply andb_prop in Hq; destruct Hq as [Hq ?]).
  repeat split; try assumption.
  - now apply String.eqb_eq.
  - now apply Bool.eqb_prop.
  - now apply Z.leb_le.
  - now apply Z.leb_le.
Qed.

Lemma activeOffer_None (c : string) (t1 t2 : Date) (db : Store) :
  (forall o, In o db -> code o = castCode (toUpperCase c) ->
     isActive o = false \/ (t1 < startDate o)%Z \/ (endDate o < t2)%Z) ->
  activeOffer c t1 t2 db = None.
Proof.
  intros H. apply find_none_iff. intros o Hin. unfold activeQuery.
  destruct (String.eqb_spec (code o) (castCode (toUpperCase c))) as [Hc|Hc];
    [|reflexivity].
  destruct (H o Hin Hc) as [Hi|[Hs|He]].
  - rewrite Hi. reflexivity.
  - apply Z.leb_gt in Hs. rewrite Hs. now rewrite andb_false_r.
  - apply Z.leb_gt in He. rewrite He. now rewrite andb_false_r.
Qed.

Section FoundOffer.

Variables (t1 t2 : Date) (c : string) (a : Q) (db : Store) (o : Offer).
Hypothesis found : activeOffer c t1 t2 db = Some o.

Lemma validateCoupon_found (u : option ObjectId) :
  fst (validateCoupon t1 t2 c a u db) = verdict (Some o) a u.
Proof.
  rewrite validateCoupon_run. simpl fst.
  unfold activeOffer in found. now rewrite found.
Qed.

(** Below the minimum, the call throws the error of the minimum. *)
Lemma below_minimum (u : option ObjectId) :
  a < minimumOrderAmount o ->
  fst (validateCoupon t1 t2 c a u db)
  = inl (MinimumNotMet (minimumOrderAmount o)).
Proof.
  intros H. rewrite validateCoupon_found. simpl.
  apply Qltb_true in H. now rewrite H.
Qed.

(** At or above the minimum, the verdict is that of the later checks. *)
Lemma minimum_met (u : option ObjectId) :
  meetsMinimum o a ->
  fst (validateCoupon t1 t2 c a u db)
  = if andThen (usageLimit o) (fun l => Qgeb (timesUsed o) l)
    then inl UsageLimitExceeded
    else match u with
         | Some u =>
             if userSpecific o && negb (includes (allowedUsers o) u)
             then inl UserNotEligible
             else inr o
         | None => inr o
         end.
Proof.
  intros H. rewrite validateCoupon_found. simpl.
  apply Qltb_false in H. now rewrite H.
Qed.

(** With uses left, the usage check lets the call through. *)
Lemma uses_left :
  hasUsesLeft o ->
  andThen (usageLimit o) (fun l => Qgeb (timesUsed o) l) = false.
Proof.
  intros H. unfold hasUsesLeft in H.
  destruct (usageLimit o) as [l|]; [|reflexivity].
  unfold andThen. destruct (truthy (Some l)) eqn:T; [|reflexivity].
  apply truthy_Some in T.
  destruct (H l eq_refl) as [Hz|Hlt]; [contradiction|].
  destruct (Qgeb (timesUsed o) l) eqn:G; [|reflexivity].
  apply Qgeb_true in G. lra.
Qed.

End FoundOffer.

(** ** The checks of [validateCoupon] *)

(** C3.  For an active offer that the lookup finds within its date window,
    [validateCoupon] throws the minimum-order error exactly when the order
    amount is below [minimumOrderAmount]; at an order amount equal to the
    minimum it does not throw that error (the boundary is inclusive). *)
Theorem C3_minimum_not_met :
  forall (t1 t2 : Date) (c : string) (a : Q) (u : option ObjectId)
         (db : Store) (o : Offer),
    activeOffer c t1 t2 db = Some o ->
    (a < minimumOrderAmount o ->
     fst (validateCoupon t1 t2 c a u db)
     = inl (MinimumNotMet (minimumOrderAmount o)))
    /\ (forall m, fst (validateCoupon t1 t2 c a u db) = inl (MinimumNotMet m) ->
        a < minimumOrderAmount o)
    /\ (a == minimumOrderAmount o ->
        forall m, fst (validateCoupon t1 t2 c a u db) <> inl (MinimumNotMet m)).
Proof.
  intros t1 t2 c a u db o Hfound.
  assert (Hconv : forall m,
             fst (validateCoupon t1 t2 c a u db) = inl (MinimumNotMet m) ->
             a < minimumOrderAmount o).
  { intros m. destruct (Qlt_le_dec a (minimumOrderAmount o)) as [Hlt|Hle];
      [intros _; exact Hlt|].
    rewrite (minimum_met _ _ _ _ _ _ Hfound u Hle).
    destruct (andThen _ _); [discriminate|].
    destruct u as [u|]; [|discriminate].
    destruct (userSpecific o && negb (includes (allowedUsers o) u));
      discriminate. }
  split; [apply below_minimum; exact Hfound|].
  split; [exact Hconv|].
  intros Heq m Hm. apply Hconv in Hm. rewrite Heq in Hm.
  exact (Qlt_irrefl _ Hm).
Qed.

Lemma C3_minimum_not_met_witness :
  fst (validateCoupon Sample.today Sample.today "flat100" 800 None
         Sample.offers)
  = inl (MinimumNotMet 1000)
  /\ fst (validateCoupon Sample.today Sample.today "flat100" 1000 None
            Sample.offers)
     <> inl (MinimumNotMet 1000).
Proof.
  split.
  - apply (C3_minimum_not_met Sample.today Sample.today "flat100" 800 None
             Sample.offers Sample.FLAT100 eq_refl).
    vm_compute. reflexivity.
  - apply (C3_minimum_not_met Sample.today Sample.today "flat100" 1000 None
             Sample.offers Sample.FLAT100 eq_refl).
    vm_compute. reflexivity.
Defined.

(** C4.  For an offer that the lookup finds and whose minimum the order
    meets: when [usageLimit] is set to a positive number, [validateCoupon]
    throws the usage-limit error exactly when [timesUsed >= usageLimit];
    when [usageLimit] is null it never throws that error. *)
Theorem C4_usage_limit_exceeded :
  forall (t1 t2 : Date) (c : string) (a : Q) (u : option ObjectId)
         (db : Store) (o : Offer),
    activeOffer c t1 t2 db = Some o ->
    meetsMinimum o a ->
    (forall l, usageLimit o = Some l -> 0 < l ->
       (fst (validateCoupon t1 t2 c a u db) = inl UsageLimitExceeded
        <-> l <= timesUsed o))
    /\ (usageLimit o = None ->
        fst (validateCoupon t1 t2 c a u db) <> inl UsageLimitExceeded).
Proof.
  intros t1 t2 c a u db o Hfound Hmin.
  rewrite (minimum_met _ _ _ _ _ _ Hfound u Hmin).
  assert (Hrest : match u with
                  | Some u =>
                      if userSpecific o && negb (includes (allowedUsers o) u)
                      then inl UserNotEligible
                      else inr o
                  | None => inr o
                  end <> inl UsageLimitExceeded).
  { destruct u as [u|]; [|discriminate].
    destruct (userSpecific o && negb (includes (allowedUsers o) u));
      discriminate. }
  split.
  - intros l Hl Hpos. rewrite Hl. unfold andThen.
    assert (T : truthy (Some l) = true) by (apply truthy_Some; lra).
    rewrite T. destruct (Qgeb (timesUsed o) l) eqn:G.
    + apply Qgeb_true in G. split; [intros _; exact G | reflexivity].
    + split; [intros H; contradiction|].
      intros Hle. apply Qgeb_true in Hle. congruence.
  - intros Hnone. rewrite Hnone. simpl. exact Hrest.
Qed.

Lemma C4_usage_limit_exceeded_witness :
  let spent := set_timesUsed Sample.ONCE 1 in
  fst (validateCoupon Sample.today Sample.today "once" 100 None [spent])
  = inl UsageLimitExceeded
  /\ fst (validateCoupon Sample.today Sample.today "once" 100 None
            [Sample.ONCE])
     <> inl UsageLimitExceeded
  /\ fst (validateCoupon Sample.today Sample.today "loyalty20" 1000
            (Some Sample.alice) [Sample.LOYALTY20])
     <> inl UsageLimitExceeded.
Proof.
  intros spent. split; [|split].
  - apply (proj1 (C4_usage_limit_exceeded Sample.today Sample.today "once"
                    100 None [spent] spent eq_refl
                    ltac:(vm_compute; discriminate)) 1 eq_refl eq_refl).
    vm_compute. discriminate.
  - intros H.
    apply (proj1 (C4_usage_limit_exceeded Sample.today Sample.today "once"
                    100 None [Sample.ONCE] Sample.ONCE eq_refl
                    ltac:(vm_compute; discriminate)) 1 eq_refl eq_refl) in H.
    vm_compute in H. apply H. reflexivity.
  - apply (proj2 (C4_usage_limit_exceeded Sample.today Sample.today
                    "loyalty20" 1000 (Some Sample.alice) [Sample.LOYALTY20]
                    Sample.LOYALTY20 eq_refl
                    ltac:(vm_compute; discriminate)) eq_refl).
Defined.

(** C2, as the code has it.  For a user-specific offer that the lookup
    finds, whose minimum the order meets and which has uses left:
    [validateCoupon] throws the eligibility error when [userId] is given and
    is not among [allowedUsers]; it returns the offer when [userId] is given
    and is among [allowedUsers], and also when no [userId] is given (the
    check is guarded by [offer.userSpecific && userId]). *)
Theorem C2_user_not_eligible :
  forall (t1 t2 : Date) (c : string) (a : Q) (db : Store) (o : Offer),
    activeOffer c t1 t2 db = Some o ->
    meetsMinimum o a ->
    hasUsesLeft o ->
    userSpecific o = true ->
    (forall u, ~ In u (allowedUsers o) ->
       fst (validateCoupon t1 t2 c a (Some u) db) = inl UserNotEligible)
    /\ (forall u, In u (allowedUsers o) ->
        fst (validateCoupon t1 t2 c a (Some u) db) = inr o)
    /\ fst (validateCoupon t1 t2 c a None db) = inr o.
Proof.
  intros t1 t2 c a db o Hfound Hmin Hleft Hspec.
  assert (Hrun : forall u,
             fst (validateCoupon t1 t2 c a u db)
             = match u with
               | Some u =>
                   if negb (includes (allowedUsers o) u)
                   then inl UserNotEligible
                   else inr o
               | None => inr o
               end).
  { intros u. rewrite (minimum_met _ _ _ _ _ _ Hfound u Hmin).
    rewrite (uses_left _ Hleft), Hspec. reflexivity. }
  split; [|split].
  - intros u Hout. rewrite Hrun.
    destruct (includes (allowedUsers o) u) eqn:I; [|reflexivity].
    apply includes_In in I. contradiction.
  - intros u Hin. rewrite Hrun.
    apply includes_In in Hin. now rewrite Hin.
  - apply Hrun.
Qed.

Lemma C2_user_not_eligible_witness :
  fst (validateCoupon Sample.today Sample.today "LOYALTY20" 1500
         (Some Sample.carol) Sample.offers)
  = inl UserNotEligible
  /\ fst (validateCoupon Sample.today Sample.today "LOYALTY20" 1500
            (Some Sample.bob) Sample.offers)
     = inr Sample.LOYALTY20.
Proof.
  assert (Hmin : meetsMinimum Sample.LOYALTY20 1500)
    by (vm_compute; discriminate).
  assert (Hleft : hasUsesLeft Sample.LOYALTY20)
    by (intros l Hl; discriminate Hl).
  destruct (C2_user_not_eligible Sample.today Sample.today "LOYALTY20" 1500
              Sample.offers Sample.LOYALTY20 eq_refl Hmin Hleft eq_refl)
    as [Hout [Hin _]].
  split.
  - apply Hout. simpl. intros [H|[H|[]]]; discriminate H.
  - apply Hin. simpl. right. left. reflexivity.
Defined.

(** C2, as stated, fails: the user-specific offer LOYALTY20 is returned to a
    caller that gives no [userId]. *)
Lemma C2_counterexample :
  userSpecific Sample.LOYALTY20 = true
  /\ activeOffer "LOYALTY20" Sample.today Sample.today Sample.offers
     = Some Sample.LOYALTY20
  /\ meetsMinimum Sample.LOYALTY20 1500
  /\ hasUsesLeft Sample.LOYALTY20
  /\ fst (validateCoupon Sample.today Sample.today "LOYALTY20" 1500 None
            Sample.offers)
     = inr Sample.LOYALTY20
  /\ fst (validateCoupon Sample.today Sample.today "LOYALTY20" 1500 None
            Sample.offers)
     <> inl UserNotEligible.
Proof.
  repeat split.
  - vm_compute. discriminate.
  - intros l Hl. discriminate Hl.
  - discriminate.
Qed.

(** C8.  [validateCoupon] writes nothing: the collection after the call is
    the collection before it, and an offer that the call returns is the
    stored document that the lookup found, with every one of its paths as
    stored. *)
Theorem C8_validate_is_a_read :
  forall (t1 t2 : Date) (c : string) (a : Q) (u : option ObjectId)
         (db : Store),
    snd (validateCoupon t1 t2 c a u db) = db
    /\ (forall o, fst (validateCoupon t1 t2 c a u db) = inr o ->
        activeOffer c t1 t2 db = Some o /\ In o db).
Proof.
  intros t1 t2 c a u db. rewrite validateCoupon_run. simpl.
  split; [reflexivity|].
  intros o H. fold (activeOffer c t1 t2 db) in H.
  destruct (activeOffer c t1 t2 db) as [o'|] eqn:F; [|discriminate H].
  assert (o' = o) as ->.
  { simpl in H. destruct (Qltb a _); [discriminate H|].
    destruct (andThen _ _); [discriminate H|].
    destruct u as [u|]; [|congruence].
    destruct (userSpecific o' && _); [discriminate H | congruence]. }
  split; [reflexivity|]. apply (activeOffer_Some _ _ _ _ _ F).
Qed.

Lemma C8_validate_is_a_read_witness :
  snd (validateCoupon Sample.today Sample.today "welcome10" 600 None
         Sample.offers) = Sample.offers
  /\ In Sample.WELCOME10 Sample.offers.
Proof.
  destruct (C8_validate_is_a_read Sample.today Sample.today "welcome10" 600
              None Sample.offers) as [Hdb Hret].
  split; [exact Hdb|].
  apply (Hret Sample.WELCOME10). reflexivity.
Defined.

(** C9.  The lookup failure does not tell its cause.  For an ASCII code: a
    run against a collection where no offer has the code (as the lookup
    normalises it: trimmed, in upper case), and a run against a collection
    where the offers of that code are inactive or outside their date window,
    both throw the same error value, whatever the other arguments of the
    two runs are. *)
Theorem C9_not_found_is_generic :
  forall (c : string)
         (t1 t2 : Date) (a : Q) (u : option ObjectId) (db : Store)
         (t1' t2' : Date) (a' : Q) (u' : option ObjectId) (db' : Store),
    isAscii c = true ->
    (forall o, In o db -> code o <> castCode (toUpperCase c)) ->
    (exists o, In o db' /\ code o = castCode (toUpperCase c)) ->
    (forall o, In o db' -> code o = castCode (toUpperCase c) ->
       isActive o = false \/ (t1' < startDate o)%Z \/ (endDate o < t2')%Z) ->
    fst (validateCoupon t1 t2 c a u db) = inl NotFound
    /\ fst (validateCoupon t1' t2' c a' u' db') = inl NotFound
    /\ fst (validateCoupon t1 t2 c a u db)
       = fst (validateCoupon t1' t2' c a' u' db').
Proof.
  intros c t1 t2 a u db t1' t2' a' u' db' _ Habsent _ Hinvalid.
  assert (H1 : fst (validateCoupon t1 t2 c a u db) = inl NotFound).
  { rewrite validateCoupon_run. simpl.
    fold (activeOffer c t1 t2 db). rewrite activeOffer_None; [reflexivity|].
    intros o Hin Hc. exfalso. exact (Habsent o Hin Hc). }
  assert (H2 : fst (validateCoupon t1' t2' c a' u' db') = inl NotFound).
  { rewrite validateCoupon_run. simpl.
    fold (activeOffer c t1' t2' db').
    rewrite activeOffer_None; [reflexivity | exact Hinvalid]. }
  split; [exact H1|]. split; [exact H2|]. now rewrite H1, H2.
Qed.

Lemma C9_not_found_is_generic_witness :
  fst (validateCoupon Sample.today Sample.today " seasonal25 " 900 None
         [Sample.WELCOME10; Sample.FLAT100])
  = fst (validateCoupon Sample.today Sample.today " seasonal25 " 5000
           (Some Sample.alice) Sample.offers).
Proof.
  apply (C9_not_found_is_generic " seasonal25 ").
  - reflexivity.
  - intros o [H|[H|[]]]; subst o; vm_compute; discriminate.
  - exists Sample.SEASONAL25. split; [|reflexivity].
    simpl. right. right. right. left. reflexivity.
  - intros o Hin Hc. right. left.
    simpl in Hin.
    destruct Hin as [H|[H|[H|[H|[H|[H|[]]]]]]]; subst o;
      try (vm_compute in Hc; discriminate Hc).
    vm_compute. reflexivity.
Defined.

(** ** [calculateDiscount] *)

(** The cap that [calculateDiscount] applies: [maximumDiscount] when it is
    truthy and below the discount. *)
Lemma calculateDiscount_run (o : Offer) (a : Q) :
  calculateDiscount o a
  = Qmin (match maximumDiscount o with
          | Some m =>
              if truthy (Some m) && Qltb m (rawDiscount o a)
              then m else rawDiscount o a
          | None => rawDiscount o a
          end) a.
Proof.
  unfold calculateDiscount, rawDiscount, andThen.
  destruct (maximumDiscount o) as [m|]; [|reflexivity].
  destruct (truthy (Some m)); reflexivity.
Qed.

(** Where [maximumDiscount] is unset or not zero, [calculateDiscount] is the
    rule as the specification words it. *)
Lemma calculateDiscount_spec_agrees (o : Offer) (a : Q) :
  (forall m, maximumDiscount o = Some m -> ~ m == 0) ->
  calculateDiscount o a = calculateDiscount_spec o a.
Proof.
  intros H. rewrite calculateDiscount_run. unfold calculateDiscount_spec.
  destruct (maximumDiscount o) as [m|]; [|reflexivity].
  specialize (H m eq_refl). apply truthy_Some in H. now rewrite H.
Qed.

(** C1.  The rule holds of the two orders of WELCOME10 (600 yields 60, 3000
    yields 200), but the cap is tested by truthiness
    ([this.maximumDiscount && ...]), so that a [maximumDiscount] set to 0 is
    not applied: ZEROCAP passes the validators of the schema with its
    [maximumDiscount] set to 0; on an order of 600 the raw discount 60
    exceeds that cap, and [calculateDiscount] returns 60 where the rule
    gives 0. *)
Theorem C1_zero_cap_ignored :
  calculateDiscount Sample.WELCOME10 600 == 60
  /\ calculateDiscount Sample.WELCOME10 3000 == 200
  /\ schemaValid Sample.ZEROCAP = true
  /\ maximumDiscount Sample.ZEROCAP = Some 0
  /\ 0 < rawDiscount Sample.ZEROCAP 600
  /\ calculateDiscount Sample.ZEROCAP 600 == 60
  /\ calculateDiscount_spec Sample.ZEROCAP 600 == 0
  /\ ~ calculateDiscount Sample.ZEROCAP 600
       == calculateDiscount_spec Sample.ZEROCAP 600.
Proof.
  split; [vm_compute; reflexivity|].
  split; [vm_compute; reflexivity|].
  split; [vm_compute; reflexivity|].
  split; [reflexivity|].
  split; [vm_compute; reflexivity|].
  split; [vm_compute; reflexivity|].
  split; [vm_compute; reflexivity|].
  vm_compute. discriminate.
Qed.

(** C6.  For every offer and every order amount that is not negative, the
    discount that [calculateDiscount] returns is at most the order amount. *)
Theorem C6_discount_at_most_order :
  forall (o : Offer) (a : Q),
    0 <= a -> calculateDiscount o a <= a.
Proof.
  intros o a _. rewrite calculateDiscount_run. apply Q.le_min_r.
Qed.

Lemma C6_discount_at_most_order_witness :
  calculateDiscount Sample.FLAT100 40 <= 40.
Proof.
  apply (C6_discount_at_most_order Sample.FLAT100 40).
  vm_compute. discriminate.
Defined.

(** X8.  A cap that is set to a non-zero value bounds the discount. *)
Lemma discount_at_most_cap (o : Offer) (a m : Q) :
  maximumDiscount o = Some m -> ~ m == 0 -> calculateDiscount o a <= m.
Proof.
  intros H Hnz. rewrite calculateDiscount_run, H.
  apply truthy_Some in Hnz. rewrite Hnz. simpl.
  destruct (Qltb m (rawDiscount o a)) eqn:E.
  - apply Q.le_min_l.
  - apply Qltb_false in E.
    apply Qle_trans with (rawDiscount o a); [apply Q.le_min_l | exact E].
Qed.

(** ** The virtual [remainingUses] *)


(** ** [applyCoupon] *)


Lemma preSave_passes (this : Offer) :
  (startDate this < endDate this)%Z -> preSave this = None.
Proof.
  intros H. unfold preSave. apply Z.leb_gt in H. now rewrite H.
Qed.

Lemma schemaValid_dates (o : Offer) :
  schemaValid o = true -> (startDate o < endDate o)%Z.
Proof.
  unfold schemaValid. intros H.
  repeat (apply andb_prop in H; destruct H as [H ?]).
  now apply Z.ltb_lt.
Qed.

(** A redemption with a discount that is not negative keeps a document
    within the validators of the schema. *)
Lemma schemaValid_kept (now : Date) (u : ObjectId) (oid : option ObjectId)
    (d : Q) (o : Offer) :
  schemaValid o = true -> 0 <= d ->
  schemaValid (redeemed now u oid d o) = true.
Proof.
  intros Hvalid Hd. unfold schemaValid in *. simpl.
  repeat (apply andb_prop in Hvalid; destruct Hvalid as [Hvalid ?]).
  repeat (apply andb_true_intro; split); try assumption.
  - match goal with
    | K : Qle_bool 0 (timesUsed o) = true |- _ => apply Qle_bool_iff in K
    end.
    apply Qle_bool_iff. lra.
  - rewrite forallb_app. apply andb_true_intro. split; [assumption|].
    simpl. rewrite andb_true_r. now apply Qle_bool_iff.
Qed.

Lemma usageRecorded_kept (now : Date) (u : ObjectId) (oid : option ObjectId)
    (d : Q) (o : Offer) :
  usageRecorded o -> usageRecorded (redeemed now u oid d o).
Proof.
  unfold usageRecorded. intros H. simpl.
  rewrite H, length_app. simpl.
  rewrite Nat2Z.inj_add, inject_Z_plus. reflexivity.
Qed.

(** *** The update of the stored document *)

Lemma updateById_stored (id : ObjectId) (f : Offer -> Offer) (db : Store) :
  (exists s, In s db /\ _id s = id) ->
  exists db', updateById id f db = Some db'.
Proof.
  intros [s [Hin Hid]]. induction db as [|o db IH]; simpl in *;
    [contradiction|].
  destruct (String.eqb_spec (_id o) id) as [E|E]; [eexists; reflexivity|].
  destruct Hin as [->|Hin]; [contradiction|].
  destruct (IH Hin) as [db' ->]. eexists. reflexivity.
Qed.

Lemma updateById_absent (id : ObjectId) (f : Offer -> Offer) (db : Store) :
  (forall s, In s db -> _id s <> id) -> updateById id f db = None.
Proof.
  induction db as [|o db IH]; intros H; simpl; [reflexivity|].
  destruct (String.eqb_spec (_id o) id) as [E|E].
  - exfalso. apply (H o); [now left | exact E].
  - rewrite IH; [reflexivity|]. intros s Hs. apply H. now right.
Qed.

(** An update by a document of that [_id] is the write of the document. *)
Lemma updateById_write (doc : Offer) (db db' : Store) :
  updateById (_id doc) (fun _ => doc) db = Some db' -> db' = write doc db.
Proof.
  revert db'. induction db as [|o db IH]; intros db'; simpl; [discriminate|].
  destruct (String.eqb (_id o) (_id doc)); [congruence|].
  destruct (updateById (_id doc) (fun _ => doc) db) as [r|]; simpl;
    [|discriminate].
  intros H. injection H as <-. now rewrite (IH r eq_refl).
Qed.

Lemma updateById_length (id : ObjectId) (f : Offer -> Offer)
    (db db' : Store) :
  updateById id f db = Some db' -> List.length db' = List.length db.
Proof.
  revert db'. induction db as [|o db IH]; intros db'; simpl; [discriminate|].
  destruct (String.eqb (_id o) id).
  - intros H. injection H as <-. reflexivity.
  - destruct (updateById id f db) as [r|]; simpl; [|discriminate].
    intros H. injection H as <-. simpl. now rewrite (IH r eq_refl).
Qed.

Lemma updateById_other (id : ObjectId) (f : Offer -> Offer)
    (db db' : Store) (x : Offer) :
  updateById id f db = Some db' -> In x db -> _id x <> id -> In x db'.
Proof.
  revert db'. induction db as [|o db IH]; intros db'; simpl; [discriminate|].
  destruct (String.eqb_spec (_id o) id) as [E|E].
  - intros H [->|Hin] Hid; [contradiction|].
    injection H as <-. now right.
  - destruct (updateById id f db) as [r|]; simpl; [|discriminate].
    intros H [->|Hin] Hid; injection H as <-; [now left|].
    right. now apply (IH r eq_refl).
Qed.

Lemma updateById_In_inv (id : ObjectId) (f : Offer -> Offer)
    (db db' : Store) (x : Offer) :
  updateById id f db = Some db' -> In x db' ->
  In x db \/ exists s, In s db /\ _id s = id /\ x = f s.
Proof.
  revert db'. induction db as [|o db IH]; intros db'; simpl; [discriminate|].
  destruct (String.eqb_spec (_id o) id) as [E|E].
  - intros H. injection H as <-. intros [<-|Hin]; [|auto].
    right. exists o. auto.
  - destruct (updateById id f db) as [r|]; simpl; [|discriminate].
    intros H. injection H as <-. intros [<-|Hin]; [auto|].
    destruct (IH r eq_refl Hin) as [K|[s [Hs [Hid Hx]]]]; [auto|].
    right. exists s. auto.
Qed.

Lemma updateById_keeps_stored (id : ObjectId) (f : Offer -> Offer)
    (db db' : Store) :
  (forall s, _id s = id -> _id (f s) = id) ->
  updateById id f db = Some db' ->
  exists s, In s db' /\ _id s = id.
Proof.
  intros Hf. revert db'.
  induction db as [|o db IH]; intros db'; simpl; [discriminate|].
  destruct (String.eqb_spec (_id o) id) as [E|E].
  - intros H. injection H as <-. exists (f o). split; [now left | auto].
  - destruct (updateById id f db) as [r|]; simpl; [|discriminate].
    intros H. injection H as <-.
    destruct (IH r eq_refl) as [x [Hx Hxid]].
    exists x. split; [now right | exact Hxid].
Qed.

Lemma write_In (doc : Offer) (db : Store) : In doc (write doc db).
Proof.
  induction db as [|o db IH]; simpl; [now left|].
  destruct (String.eqb (_id o) (_id doc)); simpl; auto.
Qed.

Lemma stillStored_In (d : Document) (db : Store) :
  In (original d) db -> stillStored d db = true.
Proof.
  intros H. unfold stillStored. apply existsb_exists.
  exists (original d). split; [exact H|].
  destruct (Offer_eq_dec (original d) (original d)); congruence.
Qed.

(** A document as a query returned it is tracked, and the first two
    statements of [applyCoupon] keep it so. *)
Lemma tracked_loaded (o : Offer) : tracked (loaded o).
Proof.
  unfold tracked, loaded, applyDelta, set_usageHistory. simpl.
  rewrite app_nil_r. now destruct o.
Qed.

Lemma tracked_touched (now : Date) (u : ObjectId) (oid : option ObjectId)
    (dd : Q) (d : Document) :
  tracked d -> tracked (touched now u oid dd d).
Proof.
  unfold tracked, touched, redeemed, applyDelta. simpl. intros H.
  rewrite H. unfold set_usageHistory, set_timesUsed. simpl.
  rewrite app_assoc. destruct (modifiedTimesUsed d); reflexivity.
Qed.

Lemma uniqueIds_In (db : Store) (x y : Offer) :
  uniqueIds db -> In x db -> In y db -> _id x = _id y -> x = y.
Proof.
  unfold uniqueIds. induction db as [|o db IH]; simpl; [contradiction|].
  intros Huniq Hx Hy Hid. inversion Huniq as [|? ? Hnotin Htail]; subst.
  destruct Hx as [->|Hx], Hy as [->|Hy]; [reflexivity | | |now apply IH].
  - exfalso. apply Hnotin. rewrite Hid. now apply in_map.
  - exfalso. apply Hnotin. rewrite <- Hid. now apply in_map.
Qed.

(** What [save] makes of the stored document is that document with the
    changes applied: in a collection without duplicate [_id]s and for a
    tracked document, the document in memory, where it is written as a
    whole, is the stored one with the changes. *)
Lemma save_sends_the_changes (d : Document) (db : Store) (stored : Offer) :
  uniqueIds db -> tracked d -> In stored db -> _id stored = _id (paths d) ->
  (if stillStored d db then paths d else applyDelta d stored)
  = applyDelta d stored.
Proof.
  intros Huniq Htracked Hin Hid.
  destruct (stillStored d db) eqn:Hstill; [|reflexivity].
  unfold stillStored in Hstill. apply existsb_exists in Hstill.
  destruct Hstill as [s [Hs Heq]].
  destruct (Offer_eq_dec s (original d)) as [->|]; [|discriminate Heq].
  assert (original d = stored) as <-; [|exact Htracked].
  apply (uniqueIds_In db); [assumption | assumption | assumption|].
  rewrite Hid, Htracked. unfold applyDelta.
  destruct (modifiedTimesUsed d); reflexivity.
Qed.

(** *** One call *)

(** One call: the document is changed in memory whatever comes of the save;
    the save is refused by a validator, by the hook, or for want of a stored
    document; otherwise the stored document is updated and the call
    completes with the document. *)
Lemma applyCoupon_run (now : Date) (u : ObjectId) (oid : option ObjectId)
    (dd : Q) (d : Document) (db : Store) :
  applyCoupon now u oid dd (d, db)
  = let d' := touched now u oid dd d in
    let this' := paths d' in
    if negb (schemaValid this') then (inl (ValidationError this'), (d', db))
    else
      match preSave this' with
      | Some e => (inl e, (d', db))
      | None =>
          match updateById (_id this')
                  (fun stored =>
                     if stillStored d' db then this' else applyDelta d' stored)
                  db with
          | None => (inl (VersionError this'), (d', db))
          | Some db' => (inr this', (loaded this', db'))
          end
      end.
Proof.
  unfold applyCoupon, bind, assignTimesUsed, pushUsageHistory, save, getThis.
  simpl. fold (redeemed now u oid dd (paths d)). fold (touched now u oid dd d).
  destruct (schemaValid (redeemed now u oid dd (paths d))); simpl;
    [|reflexivity].
  destruct (preSave (redeemed now u oid dd (paths d))); [reflexivity|].
  cbv zeta.
  destruct (updateById _ _ db); reflexivity.
Qed.

(** Whatever comes of the save, the paths in memory are the redeemed ones. *)
Lemma applyCoupon_paths (now : Date) (u : ObjectId) (oid : option ObjectId)
    (dd : Q) (d : Document) (db : Store) :
  paths (fst (snd (applyCoupon now u oid dd (d, db))))
  = redeemed now u oid dd (paths d).
Proof.
  rewrite applyCoupon_run. cbv zeta.
  destruct (negb _); [reflexivity|].
  destruct (preSave _); [reflexivity|].
  destruct (updateById _ _ db); reflexivity.
Qed.

Lemma applyCoupon_value (now : Date) (u : ObjectId) (oid : option ObjectId)
    (dd : Q) (d : Document) (db : Store) (r : Offer) :
  fst (applyCoupon now u oid dd (d, db)) = inr r ->
  r = redeemed now u oid dd (paths d).
Proof.
  rewrite applyCoupon_run. cbv zeta.
  destruct (negb _); [discriminate|].
  destruct (preSave _); [discriminate|].
  destruct (updateById _ _ db); [|discriminate].
  simpl. congruence.
Qed.

(** A document that passes the validators and is stored is saved. *)
Lemma applyCoupon_completes (now : Date) (u : ObjectId)
    (oid : option ObjectId) (dd : Q) (d : Document) (db : Store) :
  schemaValid (paths d) = true -> 0 <= dd ->
  (exists s, In s db /\ _id s = _id (paths d)) ->
  exists db',
    applyCoupon now u oid dd (d, db)
    = (inr (redeemed now u oid dd (paths d)),
       (loaded (redeemed now u oid dd (paths d)), db'))
    /\ List.length db' = List.length db
    /\ (exists s, In s db' /\ _id s = _id (paths d))
    /\ (forall x, In x db -> _id x <> _id (paths d) -> In x db')
    /\ (forall x, In x db' -> In x db \/ _id x = _id (paths d)).
Proof.
  intros Hvalid Hd Hstored. rewrite applyCoupon_run. cbv zeta.
  change (paths (touched now u oid dd d))
    with (redeemed now u oid dd (paths d)).
  pose proof (schemaValid_kept now u oid dd _ Hvalid Hd) as Hv.
  rewrite Hv. simpl negb. cbv iota.
  rewrite (preSave_passes _ (schemaValid_dates _ Hv)).
  change (_id (redeemed now u oid dd (paths d))) with (_id (paths d)).
  set (f := fun stored : Offer =>
              if stillStored (touched now u oid dd d) db
              then redeemed now u oid dd (paths d)
              else applyDelta (touched now u oid dd d) stored).
  destruct (updateById_stored (_id (paths d)) f db Hstored) as [db' Hup].
  rewrite Hup. exists db'. split; [reflexivity|].
  split; [apply (updateById_length _ _ _ _ Hup)|].
  assert (Hf : forall s, _id s = _id (paths d) -> _id (f s) = _id (paths d)).
  { intros s Hs. subst f. simpl.
    destruct (stillStored _ db); [reflexivity | exact Hs]. }
  split; [|split].
  - apply (updateById_keeps_stored _ f db db' Hf Hup).
  - intros x Hx Hid. apply (updateById_other _ _ _ _ _ Hup Hx Hid).
  - intros x Hx.
    destruct (updateById_In_inv _ _ _ _ _ Hup Hx) as [K|[s [Hs [Hid ->]]]];
      [now left|].
    right. now apply Hf.
Qed.



(** C7.  [timesUsed == length(usageHistory)] is preserved by every
    [applyCoupon] that completes: if it holds of the offer before the call,
    it holds of the offer that the call returns, which is the document in
    memory; and when the call was made on an offer as a query returned it,
    which is still what is stored, the returned offer is what is stored
    after the call. *)
Theorem C7_usage_recorded_preserved :
  forall (now : Date) (u : ObjectId) (oid : option ObjectId) (dd : Q)
         (d : Document) (db : Store) (this' : Offer),
    usageRecorded (paths d) ->
    fst (applyCoupon now u oid dd (d, db)) = inr this' ->
    usageRecorded this'
    /\ paths (fst (snd (applyCoupon now u oid dd (d, db)))) = this'
    /\ (d = loaded (paths d) -> In (paths d) db ->
        In this' (snd (snd (applyCoupon now u oid dd (d, db))))).
Proof.
  intros now u oid dd d db this' Hinv Hrun.
  pose proof (applyCoupon_value _ _ _ _ _ _ _ Hrun) as ->.
  split; [now apply usageRecorded_kept|].
  split; [apply applyCoupon_paths|].
  intros Hloaded Hin.
  rewrite applyCoupon_run in *. cbv zeta in *.
  destruct (negb _); [discriminate Hrun|].
  destruct (preSave _); [discriminate Hrun|].
  assert (Hstill : stillStored (touched now u oid dd d) db = true).
  { apply stillStored_In. simpl. rewrite Hloaded. exact Hin. }
  rewrite Hstill in *.
  destruct (updateById _ _ db) as [db'|] eqn:Hup; [|discriminate Hrun].
  simpl.
  change (_id (paths (touched now u oid dd d))) with (_id (paths d)) in Hup.
  change (paths (touched now u oid dd d))
    with (redeemed now u oid dd (paths d)) in Hup.
  change (_id (paths d)) with (_id (redeemed now u oid dd (paths d))) in Hup.
  apply updateById_write in Hup. subst db'. apply write_In.
Qed.

Lemma C7_usage_recorded_preserved_witness :
  usageRecorded
    (redeemed Sample.today Sample.bob None 300 Sample.LOYALTY20).
Proof.
  refine (proj1 (C7_usage_recorded_preserved Sample.today Sample.bob None 300
                   (loaded Sample.LOYALTY20) Sample.offers
                   (redeemed Sample.today Sample.bob None 300
                      Sample.LOYALTY20) _ _)).
  - vm_compute. reflexivity.
  - vm_compute. reflexivity.
Defined.

(** ** Successive redemptions *)

(** The first of several calls *)
Lemma applyCouponAll_cons (c : Call) (cs : list Call) (s : Doc) :
  applyCouponAll (c :: cs) s
  = let run := applyCoupon (call_now c) (call_userId c) (call_orderId c)
                 (call_discountApplied c) s in
    match applyCouponAll cs (snd run) with
    | (inr rs, s') => (inr (fst run :: rs), s')
    | (inl e, s') => (inl e, s')
    end.
Proof.
  simpl. unfold bind at 1, settle. cbv zeta.
  destruct (applyCoupon _ _ _ _ s) as [r s1]. simpl.
  unfold bind, ret. destruct (applyCouponAll cs s1) as [[e|rs] s']; reflexivity.
Qed.

(** Every call of the list is settled. *)
Lemma applyCouponAll_settled (calls : list Call) (s : Doc) :
  exists rs, fst (applyCouponAll calls s) = inr rs
             /\ List.length rs = List.length calls.
Proof.
  revert s. induction calls as [|c cs IH]; intros s.
  - exists []. split; reflexivity.
  - rewrite applyCouponAll_cons. cbv zeta.
    destruct (IH (snd (applyCoupon (call_now c) (call_userId c)
                         (call_orderId c) (call_discountApplied c) s)))
      as [rs [Hrs Hlen]].
    destruct (applyCouponAll cs _) as [[e|rs'] s']; simpl in *;
      [discriminate Hrs|].
    injection Hrs as ->. eexists. split; [reflexivity|].
    simpl. now rewrite Hlen.
Qed.

(** Every call counts in memory, whatever comes of its save. *)
Lemma applyCouponAll_counter (calls : list Call) (d : Document) (db : Store) :
  timesUsed (paths (fst (snd (applyCouponAll calls (d, db)))))
  == timesUsed (paths d) + inject_Z (Z.of_nat (List.length calls)).
Proof.
  revert d db. induction calls as [|c cs IH]; intros d db.
  - simpl. unfold inject_Z. lra.
  - rewrite applyCouponAll_cons. cbv zeta.
    pose proof (applyCoupon_paths (call_now c) (call_userId c)
                  (call_orderId c) (call_discountApplied c) d db) as Hp.
    destruct (applyCoupon _ _ _ _ (d, db)) as [r [d1 db1]].
    cbn [fst snd] in *. specialize (IH d1 db1).
    change (List.length (c :: cs)) with (S (List.length cs)).
    rewrite Nat2Z.inj_succ. unfold Z.succ. rewrite inject_Z_plus.
    change (inject_Z 1) with 1.
    destruct (applyCouponAll cs (d1, db1)) as [[e|rs] s']; cbn [fst snd] in *;
      rewrite IH, Hp; simpl timesUsed; ring.
Qed.

(** With a valid and stored document and discounts that are not negative,
    every call of the list completes. *)
Lemma applyCouponAll_complete (calls : list Call) (d : Document)
    (db : Store) (rs : list (JsError + Offer)) :
  schemaValid (paths d) = true ->
  Forall (fun c => 0 <= call_discountApplied c) calls ->
  (exists s, In s db /\ _id s = _id (paths d)) ->
  fst (applyCouponAll calls (d, db)) = inr rs ->
  successes rs = List.length calls /\ failures rs = 0%nat.
Proof.
  revert d db rs. induction calls as [|c cs IH]; intros d db rs Hv Hd Hst.
  - simpl. intros H. injection H as <-. split; reflexivity.
  - rewrite applyCouponAll_cons. cbv zeta.
    inversion Hd as [|? ? Hc Hcs]; subst.
    destruct (applyCoupon_completes (call_now c) (call_userId c)
                (call_orderId c) (call_discountApplied c) d db Hv Hc Hst)
      as [db' [-> [_ [Hst' _]]]].
    simpl fst. simpl snd.
    specialize (IH (loaded (redeemed (call_now c) (call_userId c)
                              (call_orderId c) (call_discountApplied c)
                              (paths d))) db').
    destruct (applyCouponAll cs _) as [[e|rs'] s']; simpl; [discriminate|].
    intros H. injection H as <-.
    destruct (IH rs' (schemaValid_kept _ _ _ _ _ Hv Hc) Hcs Hst' eq_refl)
      as [Hs Hf].
    unfold successes, failures in *. simpl. split; [now rewrite Hs | exact Hf].
Qed.

(** C10, as the code has it.  [applyCoupon] has no conditional increment and
    reads no [usageLimit]: each of N calls issued one after the other on an
    offer counts in memory, whatever comes of its save, so that [timesUsed]
    ends N higher, whatever the limit; and when the offer passes the
    validators of the schema and is stored and the discounts are not
    negative, all N calls complete and none fails. *)
Theorem C10_unconditional_redemption :
  forall (calls : list Call) (d : Document) (db : Store),
    let run := applyCouponAll calls (d, db) in
    (exists rs, fst run = inr rs /\ List.length rs = List.length calls)
    /\ timesUsed (paths (fst (snd run)))
       == timesUsed (paths d) + inject_Z (Z.of_nat (List.length calls))
    /\ (schemaValid (paths d) = true ->
        Forall (fun c => 0 <= call_discountApplied c) calls ->
        (exists s, In s db /\ _id s = _id (paths d)) ->
        forall rs, fst run = inr rs ->
          successes rs = List.length calls /\ failures rs = 0%nat).
Proof.
  intros calls d db run. subst run.
  split; [apply applyCouponAll_settled|].
  split; [apply applyCouponAll_counter|].
  intros Hv Hd Hst rs Hrs.
  now apply (applyCouponAll_complete calls d db rs).
Qed.

Lemma C10_unconditional_redemption_witness :
  let calls := [mkCall Sample.today Sample.alice None 50;
                mkCall Sample.today Sample.bob None 50;
                mkCall Sample.today Sample.carol None 50] in
  exists rs,
    fst (applyCouponAll calls (loaded Sample.ONCE, Sample.offers)) = inr rs
    /\ successes rs = 3%nat.
Proof.
  intros calls.
  destruct (C10_unconditional_redemption calls (loaded Sample.ONCE)
              Sample.offers) as [[rs [Hrs _]] [_ H]].
  exists rs. split; [exact Hrs|].
  refine (proj1 (H _ _ _ rs Hrs)).
  - vm_compute. reflexivity.
  - repeat constructor; vm_compute; discriminate.
  - exists Sample.ONCE. split; [|reflexivity].
    simpl. do 4 right. left. reflexivity.
Defined.

(** C10, as stated, fails at N = 2: against ONCE ([usageLimit] 1,
    [timesUsed] 0), valid and stored, both calls complete, none fails, and
    [timesUsed] ends at 2, in memory and in the collection. *)
Lemma C10_counterexample :
  let calls := [mkCall Sample.today Sample.alice None 50;
                mkCall Sample.today Sample.bob None 50] in
  let run := applyCouponAll calls (loaded Sample.ONCE, [Sample.ONCE]) in
  usageLimit Sample.ONCE = Some 1
  /\ timesUsed Sample.ONCE == 0
  /\ schemaValid Sample.ONCE = true
  /\ exists rs,
       fst run = inr rs
       /\ successes rs = 2%nat
       /\ failures rs = 0%nat
       /\ timesUsed (paths (fst (snd run))) == 2
       /\ (exists o, snd (snd run) = [o] /\ timesUsed o == 2)
       /\ ~ (successes rs = 1%nat /\ failures rs = 1%nat
             /\ timesUsed (paths (fst (snd run))) <= 1).
Proof.
  intros calls run.
  split; [reflexivity|]. split; [reflexivity|].
  split; [vm_compute; reflexivity|].
  eexists. split; [vm_compute; reflexivity|].
  split; [vm_compute; reflexivity|].
  split; [vm_compute; reflexivity|].
  split; [vm_compute; reflexivity|].
  split; [eexists; split; [vm_compute; reflexivity | vm_compute; reflexivity]|].
  intros [H _]. vm_compute in H. discriminate H.
Qed.

(** Through the route, one request after the other: the second request
    re-validates and is refused with the usage-limit error. *)
Example once_through_the_route :
  let req := mkRequest (Some "once") (Some 100) Sample.alice in
  let first := applyCouponHandler Sample.today Sample.today Sample.today req
                 [Sample.ONCE] in
  let second := applyCouponHandler Sample.today Sample.today Sample.today req
                  (snd first) in
  fst first
  = inr (Status200 (redeemed Sample.today Sample.alice None 50 Sample.ONCE)
           (calculateDiscount Sample.ONCE 100))
  /\ fst second = inr (Status400 (message UsageLimitExceeded)).
Proof. split; vm_compute; reflexivity. Qed.

(** * Further properties of the engine *)

(** ** The outcomes of [validateCoupon] *)

Lemma uses_left_iff (o : Offer) :
  andThen (usageLimit o) (fun l => Qgeb (timesUsed o) l) = false
  <-> hasUsesLeft o.
Proof.
  split; [|apply uses_left].
  unfold hasUsesLeft, andThen. intros H l Hl. rewrite Hl in H.
  destruct (truthy (Some l)) eqn:T.
  - right. destruct (Qlt_le_dec (timesUsed o) l) as [Hlt|Hle]; [exact Hlt|].
    apply Qgeb_true in Hle. congruence.
  - left. simpl in T. apply negb_false_iff in T. now apply Qeq_bool_iff.
Qed.

(** What an offer that [validateCoupon] returns has passed *)
Lemma validateCoupon_returned (t1 t2 : Date) (c : string) (a : Q)
    (u : option ObjectId) (db : Store) (o : Offer) :
  fst (validateCoupon t1 t2 c a u db) = inr o ->
  activeOffer c t1 t2 db = Some o /\ meetsMinimum o a /\ hasUsesLeft o.
Proof.
  rewrite validateCoupon_run. simpl fst. fold (activeOffer c t1 t2 db).
  destruct (activeOffer c t1 t2 db) as [o'|]; [|discriminate].
  unfold verdict.
  destruct (Qltb a (minimumOrderAmount o')) eqn:Emin; [discriminate|].
  destruct (andThen (usageLimit o') _) eqn:Euse; [discriminate|].
  apply Qltb_false in Emin. apply uses_left_iff in Euse.
  intros H. assert (o' = o) as ->.
  { destruct u as [x|]; [|congruence].
    destruct (userSpecific o' && _); [discriminate H | congruence]. }
  repeat split; assumption.
Qed.

(** X1.  For an ASCII code, [validateCoupon] returns an offer exactly when
    the lookup finds it (the first stored offer that is active, within its
    date window at the two clock readings, and whose code is the code given,
    trimmed and in upper case), the order meets its minimum, it has uses
    left, and the user, if one is given and the offer is user-specific, is
    among the allowed users. *)
Theorem validateCoupon_succeeds_iff :
  forall (t1 t2 : Date) (c : string) (a : Q) (u : option ObjectId)
         (db : Store) (o : Offer),
    isAscii c = true ->
    fst (validateCoupon t1 t2 c a u db) = inr o
    <-> activeOffer c t1 t2 db = Some o
        /\ meetsMinimum o a
        /\ hasUsesLeft o
        /\ (forall x, u = Some x -> userSpecific o = true ->
              In x (allowedUsers o)).
Proof.
  intros t1 t2 c a u db o _. rewrite validateCoupon_run. simpl fst.
  fold (activeOffer c t1 t2 db).
  destruct (activeOffer c t1 t2 db) as [o'|];
    [|split; [discriminate | intros [H _]; discriminate H]].
  unfold verdict. split.
  - destruct (Qltb a (minimumOrderAmount o')) eqn:Emin; [discriminate|].
    destruct (andThen (usageLimit o') _) eqn:Euse; [discriminate|].
    apply Qltb_false in Emin. apply uses_left_iff in Euse.
    destruct u as [x|].
    + destruct (userSpecific o') eqn:Espec; simpl.
      * destruct (includes (allowedUsers o') x) eqn:Einc; simpl;
          [|discriminate].
        intros H. injection H as <-. repeat split; try assumption.
        intros y Hy _. injection Hy as <-. now apply includes_In.
      * intros H. injection H as <-. repeat split; try assumption.
        intros y _ Hy. congruence.
    + intros H. injection H as <-. repeat split; try assumption.
      intros y Hy. discriminate Hy.
  - intros [Hfound [Hmin [Hleft Huser]]]. injection Hfound as ->.
    apply Qltb_false in Hmin. apply uses_left_iff in Hleft.
    rewrite Hmin, Hleft. destruct u as [x|]; [|reflexivity].
    destruct (userSpecific o) eqn:Espec; [|reflexivity]. simpl.
    specialize (Huser x eq_refl eq_refl). apply includes_In in Huser.
    now rewrite Huser.
Qed.

Lemma validateCoupon_succeeds_iff_witness :
  fst (validateCoupon Sample.today Sample.today " welcome10 " 600
         (Some Sample.alice) Sample.offers)
  = inr Sample.WELCOME10.
Proof.
  refine (proj2 (validateCoupon_succeeds_iff Sample.today Sample.today
                   " welcome10 " 600 (Some Sample.alice) Sample.offers
                   Sample.WELCOME10 _) _).
  - reflexivity.
  - split; [vm_compute; reflexivity|].
    split; [unfold meetsMinimum; simpl; lra|].
    split.
    + intros l Hl. injection Hl as <-. right. simpl. lra.
    + intros x _ Hspec. discriminate Hspec.
Defined.

(** X2.  For an ASCII code, [validateCoupon] throws the lookup error exactly
    when no stored offer is active, within its date window and of the code
    given, trimmed and in upper case; and it throws no error but its four. *)
Theorem validateCoupon_errors :
  forall (t1 t2 : Date) (c : string) (a : Q) (u : option ObjectId)
         (db : Store),
    isAscii c = true ->
    (fst (validateCoupon t1 t2 c a u db) = inl NotFound
     <-> activeOffer c t1 t2 db = None)
    /\ (forall e, fst (validateCoupon t1 t2 c a u db) = inl e ->
          e = NotFound
          \/ (exists o, activeOffer c t1 t2 db = Some o
                        /\ e = MinimumNotMet (minimumOrderAmount o))
          \/ e = UsageLimitExceeded
          \/ e = UserNotEligible).
Proof.
  intros t1 t2 c a u db _. rewrite validateCoupon_run. simpl fst.
  fold (activeOffer c t1 t2 db).
  destruct (activeOffer c t1 t2 db) as [o|]; unfold verdict.
  - split.
    + split; [|discriminate].
      destruct (Qltb a _); [discriminate|].
      destruct (andThen _ _); [discriminate|].
      destruct u as [x|]; [|discriminate].
      destruct (userSpecific o && _); discriminate.
    + intros e.
      destruct (Qltb a _).
      { intros H. injection H as <-. right. left. now exists o. }
      destruct (andThen _ _).
      { intros H. injection H as <-. auto. }
      destruct u as [x|]; [|discriminate].
      destruct (userSpecific o && _); [|discriminate].
      intros H. injection H as <-. auto.
  - split; [split; reflexivity|].
    intros e H. injection H as <-. now left.
Qed.

Lemma validateCoupon_errors_witness :
  fst (validateCoupon Sample.today Sample.today " seasonal25 " 900 None
         Sample.offers)
  = inl NotFound.
Proof.
  refine (proj2 (proj1 (validateCoupon_errors Sample.today Sample.today
                          " seasonal25 " 900 None Sample.offers _)) _).
  - reflexivity.
  - vm_compute. reflexivity.
Defined.

(** X3.  For an offer that is not user-specific the user does not matter. *)
Theorem validateCoupon_ignores_user :
  forall (t1 t2 : Date) (c : string) (a : Q) (u u' : option ObjectId)
         (db : Store),
    (forall o, activeOffer c t1 t2 db = Some o -> userSpecific o = false) ->
    validateCoupon t1 t2 c a u db = validateCoupon t1 t2 c a u' db.
Proof.
  intros t1 t2 c a u u' db H. rewrite !validateCoupon_run.
  fold (activeOffer c t1 t2 db) in *.
  destruct (activeOffer c t1 t2 db) as [o|]; [|reflexivity].
  unfold verdict. rewrite (H o eq_refl).
  destruct u, u'; reflexivity.
Qed.

Lemma validateCoupon_ignores_user_witness :
  validateCoupon Sample.today Sample.today "flat100" 1200 None Sample.offers
  = validateCoupon Sample.today Sample.today "flat100" 1200
      (Some Sample.carol) Sample.offers.
Proof.
  apply (validateCoupon_ignores_user Sample.today Sample.today "flat100"
           1200 None (Some Sample.carol) Sample.offers).
  intros o H. vm_compute in H. injection H as <-. reflexivity.
Defined.

(** ** Letter case of the code *)

Lemma upper_ascii_idempotent (c : ascii) :
  upper_ascii (upper_ascii c) = upper_ascii c.
Proof.
  destruct c as [[] [] [] [] [] [] [] []]; vm_compute; reflexivity.
Qed.

Lemma toUpperCase_idempotent (s : string) :
  toUpperCase (toUpperCase s) = toUpperCase s.
Proof.
  induction s as [|c s IH]; simpl; [reflexivity|].
  now rewrite upper_ascii_idempotent, IH.
Qed.

Lemma toUpperCase_length (s : string) :
  String.length (toUpperCase s) = String.length s.
Proof.
  induction s as [|c s IH]; simpl; [reflexivity | now rewrite IH].
Qed.

Lemma isSpace_upper (c : ascii) : isSpace (upper_ascii c) = isSpace c.
Proof.
  destruct c as [[] [] [] [] [] [] [] []]; vm_compute; reflexivity.
Qed.

Lemma trimStart_upper (s : string) :
  trimStart (toUpperCase s) = toUpperCase (trimStart s).
Proof.
  induction s as [|c s IH]; simpl; [reflexivity|].
  rewrite isSpace_upper. destruct (isSpace c); [exact IH | reflexivity].
Qed.

Lemma trimEnd_upper (s : string) :
  trimEnd (toUpperCase s) = toUpperCase (trimEnd s).
Proof.
  induction s as [|c s IH]; simpl; [reflexivity|].
  rewrite IH, isSpace_upper.
  destruct (trimEnd s); simpl; [|reflexivity].
  destruct (isSpace c); reflexivity.
Qed.

Lemma trimStart_idempotent (s : string) :
  trimStart (trimStart s) = trimStart s.
Proof.
  induction s as [|c s IH]; simpl; [reflexivity|].
  destruct (isSpace c) eqn:E; [exact IH|]. simpl. now rewrite E.
Qed.

Lemma trimEnd_idempotent (s : string) : trimEnd (trimEnd s) = trimEnd s.
Proof.
  induction s as [|c s IH]; simpl; [reflexivity|].
  destruct (trimEnd s) as [|c' r] eqn:E.
  - destruct (isSpace c) eqn:Sp; simpl; [reflexivity | now rewrite Sp].
  - change (trimEnd (String c (String c' r)))
      with (match trimEnd (String c' r) with
            | EmptyString =>
                if isSpace c then EmptyString else String c EmptyString
            | x => String c x
            end).
    now rewrite IH.
Qed.

Lemma trimStart_trimEnd (s : string) :
  trimStart (trimEnd s) = trimEnd (trimStart s).
Proof.
  induction s as [|c s IH]; [reflexivity|].
  change (trimEnd (String c s))
    with (match trimEnd s with
          | EmptyString =>
              if isSpace c then EmptyString else String c EmptyString
          | x => String c x
          end).
  change (trimStart (String c s))
    with (if isSpace c then trimStart s else String c s).
  destruct (isSpace c) eqn:Sp.
  - rewrite <- IH. destruct (trimEnd s) as [|c' r]; [reflexivity|].
    simpl. now rewrite Sp.
  - change (trimEnd (String c s))
      with (match trimEnd s with
            | EmptyString =>
                if isSpace c then EmptyString else String c EmptyString
            | x => String c x
            end).
    rewrite Sp. destruct (trimEnd s); simpl; now rewrite Sp.
Qed.

Lemma trim_idempotent (s : string) : trim (trim s) = trim s.
Proof.
  unfold trim. rewrite trimStart_trimEnd, trimStart_idempotent.
  apply trimEnd_idempotent.
Qed.

Lemma trim_upper (s : string) : trim (toUpperCase s) = toUpperCase (trim s).
Proof. unfold trim. now rewrite trimStart_upper, trimEnd_upper. Qed.

(** The cast of a code that is cast already changes nothing, and the upper
    case that [validateCoupon] takes first is part of the cast. *)
Lemma castCode_idempotent (c : string) : castCode (castCode c) = castCode c.
Proof.
  unfold castCode.
  now rewrite trim_upper, trim_idempotent, toUpperCase_idempotent.
Qed.

Lemma castCode_upper (c : string) : castCode (toUpperCase c) = castCode c.
Proof.
  unfold castCode. now rewrite trim_upper, toUpperCase_idempotent.
Qed.

Lemma activeOffer_cast (c c' : string) (t1 t2 : Date) (db : Store) :
  castCode (toUpperCase c) = castCode (toUpperCase c') ->
  activeOffer c t1 t2 db = activeOffer c' t1 t2 db.
Proof.
  intros H. unfold activeOffer.
  induction db as [|o db IH]; simpl; [reflexivity|].
  unfold activeQuery at 1 3. rewrite H.
  destruct (_ && _); [reflexivity | exact IH].
Qed.

(** X4.  The lookup sees neither the letter case of the code it is given nor
    the white space around it.  For ASCII codes: two codes with the same
    normal form (trimmed, in upper case), and so a code and its normal
    form, validate alike; and an offer that [validateCoupon] returns has
    its code stored in normal form. *)
Theorem validateCoupon_case_insensitive :
  forall (t1 t2 : Date) (c c' : string) (a : Q) (u : option ObjectId)
         (db : Store),
    isAscii c = true -> isAscii c' = true ->
    castCode (toUpperCase c) = castCode (toUpperCase c') ->
    validateCoupon t1 t2 c a u db = validateCoupon t1 t2 c' a u db
    /\ validateCoupon t1 t2 (castCode c) a u db
       = validateCoupon t1 t2 c a u db
    /\ (forall o, fst (validateCoupon t1 t2 c a u db) = inr o ->
          code o = castCode (toUpperCase c') /\ castCode (code o) = code o).
Proof.
  intros t1 t2 c c' a u db _ _ H. split; [|split].
  - rewrite !validateCoupon_run.
    fold (activeOffer c t1 t2 db). fold (activeOffer c' t1 t2 db).
    now rewrite (activeOffer_cast c c' t1 t2 db H).
  - rewrite !validateCoupon_run.
    fold (activeOffer (castCode c) t1 t2 db). fold (activeOffer c t1 t2 db).
    rewrite (activeOffer_cast (castCode c) c t1 t2 db); [reflexivity|].
    now rewrite !castCode_upper, castCode_idempotent.
  - intros o Ho. apply validateCoupon_returned in Ho.
    destruct Ho as [Hfound _]. apply activeOffer_Some in Hfound.
    destruct Hfound as [_ [Hc _]]. rewrite Hc.
    split; [exact H | apply castCode_idempotent].
Qed.

Lemma validateCoupon_case_insensitive_witness :
  validateCoupon Sample.today Sample.today " welcome10" 600 None
    Sample.offers
  = validateCoupon Sample.today Sample.today "WeLcOmE10  " 600 None
      Sample.offers.
Proof.
  refine (proj1 (validateCoupon_case_insensitive Sample.today Sample.today
                   " welcome10" "WeLcOmE10  " 600 None Sample.offers _ _ _));
    reflexivity.
Defined.

(** ** The virtuals and the lookup *)



(** ** The discount of a well-formed offer *)

(** What the validators of the schema say about the numbers of an offer *)
Lemma schemaValid_numbers (o : Offer) :
  schemaValid o = true ->
  0 <= value o
  /\ (type o = percentage -> value o <= 100)
  /\ (startDate o < endDate o)%Z
  /\ 0 <= minimumOrderAmount o
  /\ (forall m, maximumDiscount o = Some m -> 0 <= m)
  /\ (forall l, usageLimit o = Some l -> 1 <= l)
  /\ 0 <= timesUsed o.
Proof.
  unfold schemaValid. intros H.
  repeat (apply andb_prop in H; destruct H as [H ?]).
  repeat match goal with
         | K : Qle_bool _ _ = true |- _ => apply Qle_bool_iff in K
         end.
  split; [assumption|]. split.
  - intros Hty. rewrite Hty in *. now apply Qle_bool_iff.
  - split; [now apply Z.ltb_lt|]. split; [assumption|]. split.
    + intros m Hm. rewrite Hm in *. simpl in *. now apply Qle_bool_iff.
    + split; [|assumption].
      intros l Hl. rewrite Hl in *. simpl in *. now apply Qle_bool_iff.
Qed.

Lemma rawDiscount_monotone (o : Offer) (a b : Q) :
  0 <= value o -> a <= b -> rawDiscount o a <= rawDiscount o b.
Proof.
  intros Hv Hab. unfold rawDiscount. destruct (type o); [|apply Qle_refl].
  unfold Qdiv. apply Qmult_le_compat_r; [|vm_compute; discriminate].
  now apply Qmult_le_compat_r.
Qed.

Lemma rawDiscount_nonnegative (o : Offer) (a : Q) :
  0 <= value o -> 0 <= a -> 0 <= rawDiscount o a.
Proof.
  intros Hv Ha. unfold rawDiscount. destruct (type o); [|exact Hv].
  unfold Qdiv. apply Qmult_le_0_compat; [|vm_compute; discriminate].
  now apply Qmult_le_0_compat.
Qed.

(** The cap, as a function of the raw discount *)
Lemma cap_cases (m x : Q) :
  (if truthy (Some m) && Qltb m x then m else x) = x
  \/ ((if truthy (Some m) && Qltb m x then m else x) = m
      /\ ~ m == 0 /\ m < x).
Proof.
  destruct (truthy (Some m)) eqn:T; simpl andb; [|now left].
  destruct (Qltb m x) eqn:L; [|now left].
  right. split; [reflexivity|].
  split; [now apply truthy_Some | now apply Qltb_true].
Qed.

Lemma calculateDiscount_nonnegative (o : Offer) (a : Q) :
  0 <= value o -> (forall m, maximumDiscount o = Some m -> 0 <= m) ->
  0 <= a -> 0 <= calculateDiscount o a.
Proof.
  intros Hv Hm Ha. pose proof (rawDiscount_nonnegative o a Hv Ha) as Hraw.
  rewrite calculateDiscount_run. apply Q.min_glb; [|exact Ha].
  destruct (maximumDiscount o) as [m|]; [|exact Hraw].
  destruct (cap_cases m (rawDiscount o a)) as [-> | [-> _]];
    [exact Hraw | now apply Hm].
Qed.

(** X6.  For an offer that passes the validators of the schema and an order
    amount that is not negative, the discount is not negative, is at most
    the raw discount of the offer type, and leaves an amount to pay between
    0 and the order amount. *)
Theorem discount_bounds :
  forall (o : Offer) (a : Q),
    schemaValid o = true -> 0 <= a ->
    0 <= calculateDiscount o a
    /\ calculateDiscount o a <= rawDiscount o a
    /\ 0 <= a - calculateDiscount o a <= a.
Proof.
  intros o a Hvalid Ha.
  destruct (schemaValid_numbers o Hvalid) as [Hv [_ [_ [_ [Hm _]]]]].
  pose proof (rawDiscount_nonnegative o a Hv Ha) as Hraw.
  assert (Hup : calculateDiscount o a <= a)
    by (rewrite calculateDiscount_run; apply Q.le_min_r).
  assert (Hlow : 0 <= calculateDiscount o a)
    by (now apply calculateDiscount_nonnegative).
  assert (Hle : calculateDiscount o a <= rawDiscount o a).
  { rewrite calculateDiscount_run.
    eapply Qle_trans; [apply Q.le_min_l|].
    destruct (maximumDiscount o) as [m|]; [|apply Qle_refl].
    destruct (cap_cases m (rawDiscount o a)) as [-> | [-> [_ Hlt]]];
      [apply Qle_refl | now apply Qlt_le_weak]. }
  repeat split; try assumption; lra.
Qed.

Lemma discount_bounds_witness :
  0 <= calculateDiscount Sample.WELCOME10 3000
  /\ calculateDiscount Sample.WELCOME10 3000
     <= rawDiscount Sample.WELCOME10 3000.
Proof.
  destruct (discount_bounds Sample.WELCOME10 3000) as [H0 [H1 _]].
  - vm_compute. reflexivity.
  - vm_compute. discriminate.
  - split; assumption.
Defined.

(** X7.  A larger order never gets a smaller discount (for an offer whose value
    is not negative, as the schema requires). *)
Theorem discount_monotone :
  forall (o : Offer) (a b : Q),
    0 <= value o -> a <= b ->
    calculateDiscount o a <= calculateDiscount o b.
Proof.
  intros o a b Hv Hab. rewrite !calculateDiscount_run.
  pose proof (rawDiscount_monotone o a b Hv Hab) as Hraw.
  apply Q.min_le_compat; [|exact Hab].
  destruct (maximumDiscount o) as [m|]; [|exact Hraw].
  destruct (truthy (Some m)); simpl andb; [|exact Hraw].
  destruct (Qltb m (rawDiscount o a)) eqn:A;
    destruct (Qltb m (rawDiscount o b)) eqn:B;
    try apply Qltb_true in A; try apply Qltb_false in A;
    try apply Qltb_true in B; try apply Qltb_false in B; lra.
Qed.

Lemma discount_monotone_witness :
  calculateDiscount Sample.WELCOME10 600
  <= calculateDiscount Sample.WELCOME10 3000.
Proof.
  apply (discount_monotone Sample.WELCOME10 600 3000).
  - vm_compute. discriminate.
  - vm_compute. discriminate.
Defined.

Lemma discount_at_most_cap_witness :
  calculateDiscount Sample.WELCOME10 3000 <= 200.
Proof.
  apply (discount_at_most_cap Sample.WELCOME10 3000 200 eq_refl).
  vm_compute. discriminate.
Defined.

(** ** The virtual [remainingUses] and the usage check *)



(** ** Writing a document *)

Lemma write_In_inv (doc : Offer) (db : Store) (x : Offer) :
  In x (write doc db) -> x = doc \/ In x db.
Proof.
  induction db as [|o db IH]; simpl.
  - intros [H|[]]. now left.
  - destruct (String.eqb (_id o) (_id doc)); simpl.
    + intros [H|H]; auto.
    + intros [H|H]; auto. destruct (IH H); auto.
Qed.

Lemma write_other (doc : Offer) (db : Store) (x : Offer) :
  In x db -> _id x <> _id doc -> In x (write doc db).
Proof.
  intros Hin Hid. induction db as [|o db IH]; simpl in *; [contradiction|].
  destruct (String.eqb_spec (_id o) (_id doc)) as [E|E]; simpl.
  - destruct Hin as [->|Hin]; [contradiction | now right].
  - destruct Hin as [->|Hin]; [now left | right; now apply IH].
Qed.

Lemma write_length_stored (doc : Offer) (db : Store) :
  (exists o, In o db /\ _id o = _id doc) ->
  List.length (write doc db) = List.length db.
Proof.
  intros [x [Hin Hid]]. induction db as [|o db IH]; simpl in *;
    [contradiction|].
  destruct (String.eqb_spec (_id o) (_id doc)) as [E|E]; simpl;
    [reflexivity|].
  destruct Hin as [->|Hin]; [contradiction|]. now rewrite IH.
Qed.

(** A query that the new version of a document satisfies finds the new
    version after the write, where it found the old one before. *)
Lemma find_write (q : Offer -> bool) (old new : Offer) (db : Store) :
  uniqueIds db -> find q db = Some old -> _id new = _id old ->
  q new = true ->
  find q (write new db) = Some new.
Proof.
  unfold uniqueIds. intros Huniq Hfind Hid Hq.
  induction db as [|x db IH]; simpl in *; [discriminate|].
  inversion Huniq as [|? ? Hnotin Htail]; subst.
  destruct (q x) eqn:Qx.
  - injection Hfind as ->. rewrite Hid, String.eqb_refl. simpl.
    now rewrite Hq.
  - destruct (String.eqb_spec (_id x) (_id new)) as [E|E].
    + exfalso. apply Hnotin. apply find_some in Hfind.
      destruct Hfind as [Hin _]. rewrite E, Hid. now apply in_map.
    + simpl. rewrite Qx. now apply IH.
Qed.

(** ** What [applyCoupon] leaves alone *)

(** A call on an offer as a query returned it, which is still stored: the
    stored offer becomes the redeemed one, unless a validator refuses. *)
Lemma applyCoupon_fresh (now : Date) (u : ObjectId) (oid : option ObjectId)
    (dd : Q) (o : Offer) (db : Store) :
  In o db ->
  applyCoupon now u oid dd (loaded o, db)
  = let o' := redeemed now u oid dd o in
    if schemaValid o' then (inr o', (loaded o', write o' db))
    else (inl (ValidationError o'), (touched now u oid dd (loaded o), db)).
Proof.
  intros Hin. rewrite applyCoupon_run. cbv zeta.
  change (paths (touched now u oid dd (loaded o)))
    with (redeemed now u oid dd o).
  destruct (schemaValid (redeemed now u oid dd o)) eqn:Hv; simpl negb;
    cbv iota; [|reflexivity].
  rewrite (preSave_passes _ (schemaValid_dates _ Hv)).
  rewrite (stillStored_In (touched now u oid dd (loaded o)) db Hin).
  destruct (updateById_stored (_id (redeemed now u oid dd o))
              (fun _ => redeemed now u oid dd o) db) as [db' Hup].
  { exists o. split; [exact Hin | reflexivity]. }
  rewrite Hup. now rewrite (updateById_write _ _ _ Hup).
Qed.



(** X12.  When the end date of the offer is not after its start date the
    save is refused: [applyCoupon] throws and the collection is as before,
    but the document in memory has already been incremented. *)
Theorem applyCoupon_refused_save :
  forall (now : Date) (u : ObjectId) (oid : option ObjectId) (dd : Q)
         (d : Document) (db : Store),
    (endDate (paths d) <= startDate (paths d))%Z ->
    let run := applyCoupon now u oid dd (d, db) in
    (exists e, fst run = inl e)
    /\ snd (snd run) = db
    /\ timesUsed (paths (fst (snd run))) = timesUsed (paths d) + 1
    /\ List.length (usageHistory (paths (fst (snd run))))
       = S (List.length (usageHistory (paths d))).
Proof.
  intros now u oid dd d db Hdates run. subst run.
  rewrite applyCoupon_paths.
  assert (Hinvalid : schemaValid (redeemed now u oid dd (paths d)) = false).
  { destruct (schemaValid (redeemed now u oid dd (paths d))) eqn:Hv;
      [|reflexivity].
    apply schemaValid_dates in Hv. simpl in Hv. lia. }
  rewrite applyCoupon_run. cbv zeta.
  change (paths (touched now u oid dd d))
    with (redeemed now u oid dd (paths d)).
  rewrite Hinvalid. simpl.
  split; [eexists; reflexivity|]. split; [reflexivity|].
  split; [reflexivity|]. rewrite length_app. simpl. lia.
Qed.

Lemma applyCoupon_refused_save_witness :
  let stale := mkOffer "650000000000000000000009" "STALE" fixed 10 "Stale"
                 Sample.today Sample.today 0 None None 0 true false
                 [] [] [] [] Sample.admin None in
  snd (snd (applyCoupon Sample.today Sample.alice None 10
              (loaded stale, [stale]))) = [stale].
Proof.
  intros stale.
  refine (proj1 (proj2 (applyCoupon_refused_save Sample.today Sample.alice
                          None 10 (loaded stale) [stale] _))).
  vm_compute. discriminate.
Defined.

(** ** A redemption, then a validation *)

(** X13.  In a collection without duplicate [_id]s, after [applyCoupon] has
    completed on the offer that the lookup found, the same lookup finds the
    redeemed offer; so once a redemption has brought [timesUsed] to a
    positive limit, the next validation of the code, for an order that
    meets the minimum, throws the usage-limit error. *)
Theorem redeem_then_validate :
  forall (t1 t2 now : Date) (c : string) (a : Q) (uid : ObjectId)
         (oid : option ObjectId) (d : Q) (u : option ObjectId)
         (this this' : Offer) (db : Store),
    uniqueIds db ->
    activeOffer c t1 t2 db = Some this ->
    fst (applyCoupon now uid oid d (loaded this, db)) = inr this' ->
    let db' := snd (snd (applyCoupon now uid oid d (loaded this, db))) in
    activeOffer c t1 t2 db' = Some this'
    /\ timesUsed this' = timesUsed this + 1
    /\ (meetsMinimum this a ->
        forall l, usageLimit this = Some l -> 0 < l ->
                  l <= timesUsed this + 1 ->
                  fst (validateCoupon t1 t2 c a u db')
                  = inl UsageLimitExceeded).
Proof.
  intros t1 t2 now c a uid oid d u this this' db Huniq Hfound Hrun db'.
  subst db'.
  assert (Hin : In this db) by (apply (activeOffer_Some _ _ _ _ _ Hfound)).
  rewrite (applyCoupon_fresh now uid oid d this db Hin) in *. cbv zeta in *.
  destruct (schemaValid (redeemed now uid oid d this));
    [|discriminate Hrun].
  simpl in Hrun. injection Hrun as <-. simpl snd.
  assert (Hfound' : activeOffer c t1 t2
                      (write (redeemed now uid oid d this) db)
                    = Some (redeemed now uid oid d this)).
  { unfold activeOffer in *.
    apply (find_write _ this); [assumption | assumption | reflexivity |].
    apply find_some in Hfound. exact (proj2 Hfound). }
  split; [exact Hfound'|]. split; [reflexivity|].
  intros Hmin l Hl Hpos Hreach.
  rewrite (minimum_met _ _ _ _ _ _ Hfound' u Hmin).
  simpl usageLimit. rewrite Hl. unfold andThen.
  assert (T : truthy (Some l) = true) by (apply truthy_Some; lra).
  rewrite T. simpl timesUsed. apply Qgeb_true in Hreach.
  now rewrite Hreach.
Qed.

Lemma redeem_then_validate_witness :
  let db' := snd (snd (applyCoupon Sample.today Sample.alice None 50
                         (loaded Sample.ONCE, Sample.offers))) in
  fst (validateCoupon Sample.today Sample.today "once" 100 None db')
  = inl UsageLimitExceeded.
Proof.
  intros db'.
  destruct (redeem_then_validate Sample.today Sample.today Sample.today
              "once" 100 Sample.alice None 50 None Sample.ONCE
              (redeemed Sample.today Sample.alice None 50 Sample.ONCE)
              Sample.offers) as [_ [_ H]].
  - unfold uniqueIds. vm_compute.
    repeat (constructor;
            [simpl; intros K;
             repeat (destruct K as [K|K]; [discriminate K|]); exact K|]).
    constructor.
  - reflexivity.
  - vm_compute. reflexivity.
  - apply (H ltac:(vm_compute; discriminate) 1 eq_refl eq_refl).
    vm_compute. discriminate.
Defined.

(** ** The route [applyCoupon] *)

Lemma verdict_inr (o0 o : Offer) (a : Q) (u : option ObjectId) :
  verdict (Some o0) a u = inr o -> o = o0.
Proof.
  unfold verdict. destruct (Qltb a _); [discriminate|].
  destruct (andThen _ _); [discriminate|].
  destruct u as [x|]; [|congruence].
  destruct (userSpecific o0 && _); [discriminate | congruence].
Qed.

(** The handler, case by case *)
Lemma applyCouponHandler_run (t1 t2 t3 : Date) (req : Request) (db : Store) :
  applyCouponHandler t1 t2 t3 req db
  = match body_code req, body_orderAmount req with
    | Some c, Some a =>
        if String.eqb c "" || Qeq_bool a 0
        then (inr (Status400 required), db)
        else
          match verdict (activeOffer c t1 t2 db) a (Some (user_id req)) with
          | inl e => (inr (Status400 (message e)), db)
          | inr o =>
              let d := calculateDiscount o a in
              let o' := redeemed t3 (user_id req) None d o in
              if schemaValid o' then (inr (Status200 o' d), write o' db)
              else (inr (Status400 (message (ValidationError o'))), db)
          end
    | _, _ => (inr (Status400 required), db)
    end.
Proof.
  unfold applyCouponHandler, tryCatch, nonEmpty, required.
  destruct (body_code req) as [c|], (body_orderAmount req) as [a|];
    simpl; try reflexivity.
  - destruct (String.eqb c ""); simpl; [reflexivity|].
    destruct (Qeq_bool a 0); simpl; [reflexivity|].
    unfold bind at 1. rewrite validateCoupon_run.
    fold (activeOffer c t1 t2 db).
    destruct (activeOffer c t1 t2 db) as [o0|] eqn:F; [|reflexivity].
    destruct (verdict (Some o0) a (Some (user_id req))) as [e|o] eqn:V;
      [reflexivity|].
    apply verdict_inr in V. subst o.
    assert (Hin : In o0 db) by (apply (activeOffer_Some _ _ _ _ _ F)).
    unfold bind, call, ret. rewrite (applyCoupon_fresh _ _ _ _ _ _ Hin).
    cbv zeta. destruct (schemaValid _); reflexivity.
  - destruct (String.eqb c ""); reflexivity.
Qed.

(** The handler catches what it throws: it always replies. *)
Lemma applyCouponHandler_replies (t1 t2 t3 : Date) (req : Request)
    (db : Store) :
  exists r, fst (applyCouponHandler t1 t2 t3 req db) = inr r.
Proof.
  rewrite applyCouponHandler_run.
  destruct (body_code req) as [c|], (body_orderAmount req) as [a|];
    try (eexists; reflexivity).
  destruct (String.eqb c "" || Qeq_bool a 0); [eexists; reflexivity|].
  destruct (verdict _ a _) as [e|o]; [eexists; reflexivity|].
  cbv zeta. destruct (schemaValid _); eexists; reflexivity.
Qed.

(** X14.  The handler always replies, and a reply with status 400 leaves the
    collection as it was: in particular when the code is missing or empty,
    when the order amount is missing or zero, and when [validateCoupon]
    throws, whose message is then the message of the reply. *)
Theorem applyCouponHandler_refusals :
  forall (t1 t2 t3 : Date) (req : Request) (db : Store),
    (exists r, fst (applyCouponHandler t1 t2 t3 req db) = inr r)
    /\ (forall m, fst (applyCouponHandler t1 t2 t3 req db) = inr (Status400 m)
                  -> snd (applyCouponHandler t1 t2 t3 req db) = db)
    /\ (body_code req = None \/ body_code req = Some ""
        \/ body_orderAmount req = None
        \/ (exists a, body_orderAmount req = Some a /\ a == 0) ->
        applyCouponHandler t1 t2 t3 req db = (inr (Status400 required), db))
    /\ (forall c a e,
          body_code req = Some c -> c <> "" ->
          body_orderAmount req = Some a -> ~ a == 0 ->
          fst (validateCoupon t1 t2 c a (Some (user_id req)) db) = inl e ->
          applyCouponHandler t1 t2 t3 req db
          = (inr (Status400 (message e)), db)).
Proof.
  intros t1 t2 t3 req db.
  split; [apply applyCouponHandler_replies|].
  rewrite applyCouponHandler_run. split; [|split].
  - intros m.
    destruct (body_code req) as [c|], (body_orderAmount req) as [a|];
      try reflexivity.
    destruct (String.eqb c "" || Qeq_bool a 0); [reflexivity|].
    destruct (verdict _ a _) as [e|o]; [reflexivity|].
    cbv zeta. destruct (schemaValid _); [discriminate | reflexivity].
  - intros [H|[H|[H|[a [H Hz]]]]]; rewrite H.
    + reflexivity.
    + destruct (body_orderAmount req); reflexivity.
    + destruct (body_code req); reflexivity.
    + apply Qeq_bool_iff in Hz.
      destruct (body_code req); [|reflexivity].
      now rewrite Hz, orb_true_r.
  - intros c a e Hc Hne Ha Hnz He. rewrite Hc, Ha.
    apply String.eqb_neq in Hne. rewrite Hne.
    destruct (Qeq_bool a 0) eqn:Z;
      [apply Qeq_bool_iff in Z; contradiction|].
    simpl orb. cbv iota.
    rewrite validateCoupon_run in He. simpl in He.
    fold (activeOffer c t1 t2 db) in He. now rewrite He.
Qed.

Lemma applyCouponHandler_refusals_witness :
  applyCouponHandler Sample.today Sample.today Sample.today
    (mkRequest (Some "welcome10") (Some 0) Sample.alice) Sample.offers
  = (inr (Status400 required), Sample.offers)
  /\ applyCouponHandler Sample.today Sample.today Sample.today
       (mkRequest (Some "flat100") (Some 800) Sample.alice) Sample.offers
     = (inr (Status400 (message (MinimumNotMet 1000))), Sample.offers).
Proof.
  split.
  - apply (applyCouponHandler_refusals Sample.today Sample.today Sample.today
             (mkRequest (Some "welcome10") (Some 0) Sample.alice)
             Sample.offers).
    right. right. right. exists 0. split; reflexivity.
  - apply (proj2 (proj2 (proj2
             (applyCouponHandler_refusals Sample.today Sample.today
                Sample.today
                (mkRequest (Some "flat100") (Some 800) Sample.alice)
                Sample.offers))) "flat100" 800 (MinimumNotMet 1000)).
    + reflexivity.
    + discriminate.
    + reflexivity.
    + vm_compute. discriminate.
    + reflexivity.
Defined.

(** X15.  A reply with status 200 tells a redemption: [validateCoupon] returned an
    offer for the code, the amount and the user of the request; the discount
    of the reply is [calculateDiscount] of that offer, at most the order
    amount; the offer of the reply is that offer redeemed once, with a usage
    entry for the user of the request, no order and that discount; it is
    what the collection now stores, in a collection of the same size. *)
Theorem applyCouponHandler_redeems :
  forall (t1 t2 t3 : Date) (req : Request) (db : Store) (o' : Offer) (d : Q),
    fst (applyCouponHandler t1 t2 t3 req db) = inr (Status200 o' d) ->
    exists c a o,
      body_code req = Some c /\ body_orderAmount req = Some a
      /\ fst (validateCoupon t1 t2 c a (Some (user_id req)) db) = inr o
      /\ d = calculateDiscount o a /\ d <= a
      /\ timesUsed o' = timesUsed o + 1
      /\ usageHistory o'
         = (usageHistory o ++ [mkUsageEntry (user_id req) None d t3])%list
      /\ snd (applyCouponHandler t1 t2 t3 req db) = write o' db
      /\ In o' (snd (applyCouponHandler t1 t2 t3 req db))
      /\ List.length (snd (applyCouponHandler t1 t2 t3 req db))
         = List.length db.
Proof.
  intros t1 t2 t3 req db o' d. rewrite applyCouponHandler_run.
  destruct (body_code req) as [c|], (body_orderAmount req) as [a|];
    try discriminate.
  destruct (String.eqb c "" || Qeq_bool a 0); [discriminate|].
  destruct (verdict (activeOffer c t1 t2 db) a (Some (user_id req)))
    as [e|o] eqn:V; [discriminate|].
  cbv zeta. destruct (schemaValid _); [|discriminate]. simpl.
  intros H. injection H as <- <-.
  assert (Hv : fst (validateCoupon t1 t2 c a (Some (user_id req)) db) = inr o).
  { rewrite validateCoupon_run. simpl.
    fold (activeOffer c t1 t2 db). exact V. }
  exists c, a, o. repeat split; try assumption.
  - rewrite calculateDiscount_run. apply Q.le_min_r.
  - apply write_In.
  - apply write_length_stored. exists o. split; [|reflexivity].
    apply validateCoupon_returned in Hv. destruct Hv as [Hf _].
    apply (activeOffer_Some _ _ _ _ _ Hf).
Qed.

Lemma applyCouponHandler_redeems_witness :
  exists c a o,
    body_code (mkRequest (Some "welcome10") (Some 600) Sample.alice) = Some c
    /\ body_orderAmount (mkRequest (Some "welcome10") (Some 600) Sample.alice)
       = Some a
    /\ fst (validateCoupon Sample.today Sample.today c a (Some Sample.alice)
              Sample.offers) = inr o.
Proof.
  destruct (applyCouponHandler_redeems Sample.today Sample.today Sample.today
              (mkRequest (Some "welcome10") (Some 600) Sample.alice)
              Sample.offers
              (redeemed Sample.today Sample.alice None
                 (calculateDiscount Sample.WELCOME10 600) Sample.WELCOME10)
              (calculateDiscount Sample.WELCOME10 600))
    as [c [a [o [Hc [Ha [Hv _]]]]]].
  - vm_compute. reflexivity.
  - exists c, a, o. repeat split; assumption.
Defined.

(** ** Requests served one after the other *)

(** What holds of every stored offer, and is kept by the redemption of an
    offer with uses left, holds of every stored offer after a request. *)
Lemma applyCouponHandler_invariant (P : Offer -> Prop)
    (t1 t2 t3 : Date) (req : Request) (db : Store) :
  (forall now uid a o,
      P o -> meetsMinimum o a -> hasUsesLeft o ->
      P (redeemed now uid None (calculateDiscount o a) o)) ->
  (forall o, In o db -> P o) ->
  forall o, In o (snd (applyCouponHandler t1 t2 t3 req db)) -> P o.
Proof.
  intros Hstep Hdb. rewrite applyCouponHandler_run.
  destruct (body_code req) as [c|], (body_orderAmount req) as [a|];
    try exact Hdb.
  destruct (String.eqb c "" || Qeq_bool a 0); [exact Hdb|].
  destruct (verdict (activeOffer c t1 t2 db) a (Some (user_id req)))
    as [e|o] eqn:V; [exact Hdb|].
  cbv zeta. destruct (schemaValid _); [|exact Hdb]. simpl.
  assert (Hv : fst (validateCoupon t1 t2 c a (Some (user_id req)) db) = inr o).
  { rewrite validateCoupon_run. simpl.
    fold (activeOffer c t1 t2 db). exact V. }
  apply validateCoupon_returned in Hv.
  destruct Hv as [Hfound [Hmin Hleft]].
  apply activeOffer_Some in Hfound. destruct Hfound as [Hin _].
  intros x Hx. apply write_In_inv in Hx. destruct Hx as [->|Hx].
  - apply Hstep; [now apply Hdb | exact Hmin | exact Hleft].
  - now apply Hdb.
Qed.

Lemma serve_cons (x : Arrival) (xs : list Arrival) (db : Store) :
  exists r,
    fst (applyCouponHandler (arrival_t1 x) (arrival_t2 x) (arrival_t3 x)
           (arrival_request x) db) = inr r
    /\ serve (x :: xs) db
       = match serve xs (snd (applyCouponHandler (arrival_t1 x)
                                (arrival_t2 x) (arrival_t3 x)
                                (arrival_request x) db)) with
         | (inr rs, s) => (inr (r :: rs), s)
         | (inl e, s) => (inl e, s)
         end.
Proof.
  destruct (applyCouponHandler_replies (arrival_t1 x) (arrival_t2 x)
              (arrival_t3 x) (arrival_request x) db) as [r Hr].
  exists r. split; [exact Hr|].
  simpl. unfold bind at 1.
  destruct (applyCouponHandler _ _ _ _ db) as [res s]. simpl in *.
  subst res. unfold bind, ret.
  destruct (serve xs s) as [[e|rs] s']; reflexivity.
Qed.

Lemma serve_invariant (P : Offer -> Prop) (arrivals : list Arrival) :
  (forall now uid a o,
      P o -> meetsMinimum o a -> hasUsesLeft o ->
      P (redeemed now uid None (calculateDiscount o a) o)) ->
  forall db,
    (forall o, In o db -> P o) ->
    (exists rs, fst (serve arrivals db) = inr rs
                /\ List.length rs = List.length arrivals)
    /\ forall o, In o (snd (serve arrivals db)) -> P o.
Proof.
  intros Hstep. induction arrivals as [|x xs IH]; intros db Hdb.
  - split; [exists []; split; reflexivity | exact Hdb].
  - destruct (serve_cons x xs db) as [r [_ ->]].
    pose proof (applyCouponHandler_invariant P (arrival_t1 x) (arrival_t2 x)
                  (arrival_t3 x) (arrival_request x) db Hstep Hdb) as Hnext.
    destruct (IH _ Hnext) as [[rs [Hrs Hlen]] Hinv].
    destruct (serve xs _) as [[e|rs'] s]; simpl in *; [discriminate Hrs|].
    injection Hrs as ->.
    split; [|exact Hinv].
    exists (r :: rs). split; [reflexivity | simpl; now rewrite Hlen].
Qed.

Lemma withinLimit_redeemed (now : Date) (uid : ObjectId) (d : Q) (o : Offer) :
  withinLimit o -> hasUsesLeft o -> withinLimit (redeemed now uid None d o).
Proof.
  intros [[n Hn] Hlim] Hleft. split.
  - exists (n + 1)%Z. simpl. rewrite Hn, inject_Z_plus. reflexivity.
  - simpl. intros l Hl. destruct (Hlim l Hl) as [[m Hm] _].
    split; [now exists m|]. intros Hpos.
    destruct (Hleft l Hl) as [Hz|Hlt]; [lra|].
    rewrite Hn, Hm in *. rewrite <- Zlt_Qlt in Hlt.
    change 1 with (inject_Z 1). rewrite <- inject_Z_plus, <- Zle_Qle. lia.
Qed.

Lemma usageRecorded_redeemed (now : Date) (uid : ObjectId) (d : Q)
    (o : Offer) :
  usageRecorded o -> usageRecorded (redeemed now uid None d o).
Proof.
  unfold usageRecorded. intros H. simpl.
  rewrite H, length_app. simpl.
  rewrite Nat2Z.inj_add, inject_Z_plus. reflexivity.
Qed.

(** X16.  Served one after the other, the requests to the route never redeem a
    coupon beyond its limit: if in every stored offer the counter and the
    limit are whole numbers and a positive limit is not exceeded, the same
    holds after any number of requests, each of which is answered. *)
Theorem serve_never_over_redeems :
  forall (arrivals : list Arrival) (db : Store),
    (forall o, In o db -> withinLimit o) ->
    (exists rs, fst (serve arrivals db) = inr rs
                /\ List.length rs = List.length arrivals)
    /\ forall o, In o (snd (serve arrivals db)) ->
         withinLimit o
         /\ (forall l, usageLimit o = Some l -> 0 < l -> timesUsed o <= l).
Proof.
  intros arrivals db Hdb.
  destruct (serve_invariant withinLimit arrivals
              (fun now uid a o H _ =>
                 withinLimit_redeemed now uid (calculateDiscount o a) o H)
              db Hdb)
    as [Hrs Hinv].
  split; [exact Hrs|].
  intros o Ho. split; [now apply Hinv|].
  intros l Hl Hpos. destruct (Hinv o Ho) as [_ Hlim].
  now apply (Hlim l Hl).
Qed.

Lemma serve_never_over_redeems_witness :
  let req := mkRequest (Some "once") (Some 100) Sample.alice in
  let x := mkArrival Sample.today Sample.today Sample.today req in
  Forall (fun o => timesUsed o <= 1) (snd (serve [x; x; x] [Sample.ONCE])).
Proof.
  intros req x. apply Forall_forall. intros o Ho.
  destruct (serve_never_over_redeems [x; x; x] [Sample.ONCE]) as [_ H].
  - intros o' [<-|[]]. split; [exists 0%Z; reflexivity|].
    intros l Hl. injection Hl as <-.
    split; [exists 1%Z; reflexivity | intros _; vm_compute; discriminate].
  - destruct (H o Ho) as [_ Hlim].
    apply (Hlim 1); [|reflexivity].
    vm_compute in Ho. destruct Ho as [<-|[]]. reflexivity.
Defined.

(** X17.  Served one after the other, the requests keep the counter and the
    ledger together: if [timesUsed == length(usageHistory)] holds of every
    stored offer, it holds of every stored offer after any number of
    requests. *)
Theorem serve_keeps_ledger :
  forall (arrivals : list Arrival) (db : Store),
    (forall o, In o db -> usageRecorded o) ->
    forall o, In o (snd (serve arrivals db)) -> usageRecorded o.
Proof.
  intros arrivals db Hdb.
  apply (serve_invariant usageRecorded arrivals
           (fun now uid a o H _ _ =>
              usageRecorded_redeemed now uid (calculateDiscount o a) o H)
           db Hdb).
Qed.

Lemma serve_keeps_ledger_witness :
  let req := mkRequest (Some "welcome10") (Some 600) Sample.bob in
  let x := mkArrival Sample.today Sample.today Sample.today req in
  Forall usageRecorded (snd (serve [x; x] [Sample.WELCOME10])).
Proof.
  intros req x. apply Forall_forall.
  apply (serve_keeps_ledger [x; x] [Sample.WELCOME10]).
  intros o [<-|[]]. vm_compute. reflexivity.
Defined.

Lemma schemaValid_redeemed (now : Date) (uid : ObjectId) (a : Q) (o : Offer) :
  schemaValid o = true -> meetsMinimum o a ->
  schemaValid (redeemed now uid None (calculateDiscount o a) o) = true.
Proof.
  intros Hvalid Hmin.
  destruct (schemaValid_numbers o Hvalid) as [Hv [_ [_ [Hm0 [Hm [_ Ht]]]]]].
  assert (Ha : 0 <= a) by (unfold meetsMinimum in Hmin; lra).
  pose proof (calculateDiscount_nonnegative o a Hv Hm Ha) as Hd.
  unfold schemaValid in *. simpl.
  repeat (apply andb_prop in Hvalid; destruct Hvalid as [Hvalid ?]).
  repeat (apply andb_true_intro; split); try assumption.
  - apply Qle_bool_iff. lra.
  - rewrite forallb_app. apply andb_true_intro. split; [assumption|].
    simpl. rewrite andb_true_r. now apply Qle_bool_iff.
Qed.

(** X18.  Served one after the other, the requests keep every stored offer within
    the validators of the schema: the counter stays non-negative and every
    usage entry that the route records has a discount that is not negative
    (an order amount that passes [validateCoupon] is not negative, as the
    minimum of a valid offer is not). *)
Theorem serve_keeps_schema_valid :
  forall (arrivals : list Arrival) (db : Store),
    (forall o, In o db -> schemaValid o = true) ->
    forall o, In o (snd (serve arrivals db)) ->
      schemaValid o = true
      /\ Forall (fun e => 0 <= entry_discountApplied e) (usageHistory o).
Proof.
  intros arrivals db Hdb o Ho.
  assert (Hvalid : schemaValid o = true).
  { revert o Ho.
    apply (serve_invariant (fun o => schemaValid o = true) arrivals
             (fun now uid a o H Hmin _ => schemaValid_redeemed now uid a o H Hmin)
             db Hdb). }
  split; [exact Hvalid|].
  unfold schemaValid in Hvalid. apply andb_prop in Hvalid.
  destruct Hvalid as [_ Hhist]. apply Forall_forall. intros e He.
  rewrite forallb_forall in Hhist. apply Qle_bool_iff. now apply Hhist.
Qed.

Lemma serve_keeps_schema_valid_witness :
  let req := mkRequest (Some "welcome10") (Some 600) Sample.bob in
  let x := mkArrival Sample.today Sample.today Sample.today req in
  Forall (fun o => schemaValid o = true)
    (snd (serve [x; x] [Sample.WELCOME10])).
Proof.
  intros req x. apply Forall_forall. intros o Ho.
  refine (proj1 (serve_keeps_schema_valid [x; x] [Sample.WELCOME10] _ o Ho)).
  intros o' [<-|[]]. vm_compute. reflexivity.
Defined.

(** ** [findActive] *)

Lemma insertNewest_perm (k : Offer -> Date) (o : Offer) (l : list Offer) :
  Permutation (o :: l) (insertNewest k o l).
Proof.
  induction l as [|x l IH]; simpl; [apply Permutation_refl|].
  destruct (k x <=? k o)%Z; [apply Permutation_refl|].
  eapply Permutation_trans; [apply perm_swap|]. now apply perm_skip.
Qed.

Lemma sortNewest_perm (k : Offer -> Date) (l : list Offer) :
  Permutation l (sortNewest k l).
Proof.
  induction l as [|o l IH]; simpl; [apply Permutation_refl|].
  eapply Permutation_trans; [|apply insertNewest_perm]. now apply perm_skip.
Qed.

Lemma insertNewest_sorted (k : Offer -> Date) (o : Offer) (l : list Offer) :
  StronglySorted (newerFirst k) l ->
  StronglySorted (newerFirst k) (insertNewest k o l).
Proof.
  induction l as [|x l IH]; intros Hs; simpl.
  - constructor; constructor.
  - inversion Hs as [|? ? Htail Hall]; subst.
    destruct (k x <=? k o)%Z eqn:E.
    + apply Z.leb_le in E. constructor; [exact Hs|].
      constructor; [exact E|].
      apply Forall_forall. intros y Hy.
      rewrite Forall_forall in Hall. specialize (Hall y Hy).
      unfold newerFirst in *. lia.
    + apply Z.leb_gt in E. constructor; [now apply IH|].
      apply Forall_forall. intros y Hy.
      apply (Permutation_in _ (Permutation_sym (insertNewest_perm k o l)))
        in Hy.
      destruct Hy as [<-|Hy].
      * unfold newerFirst. lia.
      * rewrite Forall_forall in Hall. now apply Hall.
Qed.

Lemma sortNewest_sorted (k : Offer -> Date) (l : list Offer) :
  StronglySorted (newerFirst k) (sortNewest k l).
Proof.
  induction l as [|o l IH]; simpl; [constructor|].
  now apply insertNewest_sorted.
Qed.

(** The query of [findActive], condition by condition *)
Lemma findActiveQuery_true (f : Filters) (t1 t2 : Date) (o : Offer) :
  findActiveQuery f t1 t2 o = true
  <-> isActive o = true /\ (startDate o <= t1)%Z /\ (t2 <= endDate o)%Z
      /\ (forall ty, filter_type f = Some ty -> type o = ty)
      /\ (forall m, filter_minimumOrderAmount f = Some m -> ~ m == 0 ->
            minimumOrderAmount o <= m)
      /\ (forall m, filter_maximumDiscount f = Some m -> ~ m == 0 ->
            exists d, maximumDiscount o = Some d /\ m <= d).
Proof.
  unfold findActiveQuery. rewrite !andb_true_iff.
  rewrite Z.leb_le, Z.leb_le.
  assert (Hact : Bool.eqb (isActive o) true = true <-> isActive o = true)
    by (destruct (isActive o); simpl; split; congruence).
  assert (Hty : match filter_type f with
                | Some ty => OfferType_eqb (type o) ty
                | None => true
                end = true
                <-> forall ty, filter_type f = Some ty -> type o = ty).
  { destruct (filter_type f) as [ty|].
    - split.
      + intros H ty' E. injection E as <-.
        destruct (type o), ty; simpl in H; congruence.
      + intros H. rewrite (H ty eq_refl). destruct ty; reflexivity.
    - split; [intros _ ty E; discriminate E | reflexivity]. }
  assert (Hmin : match filter_minimumOrderAmount f with
                 | Some m =>
                     if truthy (Some m)
                     then Qle_bool (minimumOrderAmount o) m else true
                 | None => true
                 end = true
                 <-> forall m, filter_minimumOrderAmount f = Some m ->
                               ~ m == 0 -> minimumOrderAmount o <= m).
  { destruct (filter_minimumOrderAmount f) as [m|].
    - destruct (truthy (Some m)) eqn:T.
      + rewrite Qle_bool_iff. split.
        * intros H m' E _. now injection E as <-.
        * intros H. apply (H m eq_refl). now apply truthy_Some.
      + split; [|reflexivity]. intros _ m' E Hnz. injection E as <-.
        apply truthy_Some in Hnz. congruence.
    - split; [intros _ m E; discriminate E | reflexivity]. }
  assert (Hmax : match filter_maximumDiscount f with
                 | Some m =>
                     if truthy (Some m)
                     then match maximumDiscount o with
                          | Some d => Qle_bool m d
                          | None => false
                          end
                     else true
                 | None => true
                 end = true
                 <-> forall m, filter_maximumDiscount f = Some m ->
                               ~ m == 0 ->
                               exists d, maximumDiscount o = Some d /\ m <= d).
  { destruct (filter_maximumDiscount f) as [m|].
    - destruct (truthy (Some m)) eqn:T.
      + split.
        * intros H m' E _. injection E as <-.
          destruct (maximumDiscount o) as [d|]; [|discriminate H].
          exists d. split; [reflexivity | now apply Qle_bool_iff].
        * intros H. apply truthy_Some in T.
          destruct (H m eq_refl T) as [d [-> Hd]]. now apply Qle_bool_iff.
      + split; [|reflexivity]. intros _ m' E Hnz. injection E as <-.
        apply truthy_Some in Hnz. congruence.
    - split; [intros _ m E; discriminate E | reflexivity]. }
  rewrite Hact, Hty, Hmin, Hmax. tauto.
Qed.

(** X19.  [findActive] reads only; its result holds exactly the stored offers that
    are active, started at the first clock reading and not ended at the
    second, and that pass each filter that is given and is not zero (a
    filter on the maximum discount passes no offer without one); each such
    offer is listed as often as it is stored, newest first. *)
Theorem findActive_result :
  forall (createdAt : Offer -> Date) (f : Filters) (t1 t2 : Date)
         (db : Store),
    snd (findActive createdAt f t1 t2 db) = db
    /\ exists l,
        fst (findActive createdAt f t1 t2 db) = inr l
        /\ Permutation (filter (findActiveQuery f t1 t2) db) l
        /\ StronglySorted (newerFirst createdAt) l
        /\ forall o,
            In o l
            <-> In o db
                /\ isActive o = true
                /\ (startDate o <= t1)%Z /\ (t2 <= endDate o)%Z
                /\ (forall ty, filter_type f = Some ty -> type o = ty)
                /\ (forall m, filter_minimumOrderAmount f = Some m ->
                      ~ m == 0 -> minimumOrderAmount o <= m)
                /\ (forall m, filter_maximumDiscount f = Some m ->
                      ~ m == 0 ->
                      exists d, maximumDiscount o = Some d /\ m <= d).
Proof.
  intros createdAt f t1 t2 db. split; [reflexivity|].
  eexists. split; [reflexivity|].
  split; [apply sortNewest_perm|]. split; [apply sortNewest_sorted|].
  intros o. rewrite <- findActiveQuery_true, <- filter_In. split.
  - apply Permutation_in. apply Permutation_sym, sortNewest_perm.
  - apply Permutation_in. apply sortNewest_perm.
Qed.

(** X20.  Every offer that [validateCoupon] returns is among the offers that
    [findActive] lists without filters at the same clock readings. *)
Theorem findActive_lists_validated :
  forall (createdAt : Offer -> Date) (t1 t2 : Date) (c : string) (a : Q)
         (u : option ObjectId) (db : Store) (o : Offer),
    fst (validateCoupon t1 t2 c a u db) = inr o ->
    exists l, fst (findActive createdAt noFilters t1 t2 db) = inr l
              /\ In o l.
Proof.
  intros createdAt t1 t2 c a u db o Ho.
  apply validateCoupon_returned in Ho. destruct Ho as [Hfound _].
  apply activeOffer_Some in Hfound.
  destruct Hfound as [Hin [_ [Hact [Hs He]]]].
  eexists. split; [reflexivity|].
  apply (Permutation_in _ (sortNewest_perm createdAt _)).
  apply filter_In. split; [exact Hin|]. apply findActiveQuery_true.
  repeat split; try assumption; simpl; intros x E; discriminate E.
Qed.

Lemma findActive_lists_validated_witness :
  exists l, fst (findActive startDate noFilters Sample.today Sample.today
                   Sample.offers) = inr l
            /\ In Sample.FLAT100 l.
Proof.
  apply (findActive_lists_validated startDate Sample.today Sample.today
           "flat100" 1200 None Sample.offers Sample.FLAT100).
  reflexivity.
Defined.

(** ** The sample data *)

Example sample_offers_valid : forallb schemaValid Sample.offers = true.
Proof. vm_compute. reflexivity. Qed.

Example welcome10_600 : calculateDiscount Sample.WELCOME10 600 == 60.
Proof. vm_compute. reflexivity. Qed.

Example flat100_below_minimum :
  fst (validateCoupon Sample.today Sample.today "flat100" 800 None
         Sample.offers)
  = inl (MinimumNotMet 1000).
Proof. vm_compute. reflexivity. Qed.

Example seasonal25_not_started :
  fst (validateCoupon Sample.today Sample.today "SEASONAL25" 900 None
         Sample.offers)
  = inl NotFound.
Proof. vm_compute. reflexivity. Qed.

